(** * binance-trading-bot: signal rules, risk manager and backtest replay

    A shallow embedding of the decision core of the bot:
    - [app/data/indicators.py]   (module [Indicators]),
    - [app/strategy/ma_crossover.py] (module [Strategy]),
    - [app/risk/manager.py]      (module [Risk]),
    - [app/bot.py], method [TradingBot.backtest] (module [Backtest]),
    - [app/execution/order.py]   (module [Orders]),
    - [app/bot.py], the loop over the signals in [TradingBot.run]
      (module [Live]).

    Numbers.  Python [float] and [numpy.float64] values are modelled by
    exact rationals ([Q]); rounding, infinities and NaN are outside the
    model.  Frames handed to the signal rules and to the backtest come out
    of [add_indicators], whose [dropna] removes every row holding a NaN, so
    the rows seen here carry defined values.  Equality of computed numbers
    is [Qeq] ([==]); records are compared with Leibniz equality when they
    are produced by the same computation.  The rationals agree with the
    doubles of the program on the expressions that are evaluated, on their
    order, and on the comparisons of stored values, because rounding is
    monotone; they do not agree on strict inequalities between computed
    values nor on identities such as [x / y * y == x].  Module [Double]
    evaluates the threshold formulas in binary64 to show where the two part,
    and the properties are stated in the form that holds for both.

    Errors.  Python exceptions are the [Raise] branch of [outcome]. *)

From stdpp Require Import gmap strings list pretty.
From Stdlib Require Import QArith Lqa.
From Stdlib Require Floats.PrimFloat.

Open Scope Q_scope.

(** ** Exceptions and the error monad *)

Inductive exn : Type :=
| IndexError
| ValueError (msg : string)
| ZeroDivisionError.

Inductive outcome (A : Type) : Type :=
| Ok (a : A)
| Raise (e : exn).

Arguments Ok {A} a.
Arguments Raise {A} e.

(** [x ← m; k] runs [m] and passes its value on; a raised exception
    propagates. *)
#[global] Instance outcome_bind : MBind outcome := fun A B k m =>
  match m with
  | Ok a => k a
  | Raise e => Raise e
  end.

(** ** Float comparisons (no NaN in the model) *)

(** Python [x <= y]. *)
Definition fle (x y : Q) : bool := Qle_bool x y.
(** Python [x < y]. *)
Definition flt (x y : Q) : bool := negb (Qle_bool y x).
(** Python [x >= y]. *)
Definition fge (x y : Q) : bool := fle y x.
(** Python [x > y]. *)
Definition fgt (x y : Q) : bool := flt y x.
(** Python [x == y]. *)
Definition feq (x y : Q) : bool := Qeq_bool x y.

(** Python [min(x, y)] on two floats: [y] when [y < x], else [x]. *)
Definition fmin (x y : Q) : Q := if flt y x then y else x.

(** ** Configuration ([app/config.py], [get_config]) *)

Record IndicatorsConfig : Type := {
  short_ma_period : Z;
  long_ma_period : Z;
  rsi_period : Z;
  rsi_buy_threshold : Q;
  rsi_sell_threshold : Q
}.

Record TradingConfig : Type := {
  pairs : list string;
  investment_amount : Q;
  risk_percentage : Q;
  max_position_size : Q;
  stop_loss_percentage : Q;
  take_profit_percentage : Q
}.

Record Config : Type := {
  indicators : IndicatorsConfig;
  trading : TradingConfig
}.

(** The defaults of [app/config.py]. *)
Definition default_config : Config := {|
  indicators := {|
    short_ma_period := 20;
    long_ma_period := 50;
    rsi_period := 14;
    rsi_buy_threshold := 50;
    rsi_sell_threshold := 70 |};
  trading := {|
    pairs := ["BTC/USDT"; "ETH/USDT"; "XRP/USDT"; "ADA/USDT"; "SOL/USDT"]%string;
    investment_amount := 100;
    risk_percentage := 50;
    max_position_size := 10;
    stop_loss_percentage := 5;
    take_profit_percentage := 10 |}
|}.

(** ** Rows of an augmented frame *)

(** One row of the frame returned by [add_indicators]: the index value
    ([row.name], a timestamp, here in epoch milliseconds), the [close]
    column, the moving-average columns [ma_<n>] addressed by their period
    [n], and the [rsi] column.  The frame and the rules are always used with
    the same configuration, so the columns [ma_<short>] and [ma_<long>]
    exist; when both periods are equal they are one and the same column. *)
Record Row : Type := {
  name : Z;
  close : Q;
  ma : Z -> Q;
  rsi : Q
}.

Abbreviation DataFrame := (list Row).

(** [df.iloc[i]], with Python's negative indices and [IndexError]. *)
Definition iloc (df : DataFrame) (i : Z) : outcome Row :=
  let n := Z.of_nat (length df) in
  let j := if (i <? 0)%Z then (n + i)%Z else i in
  if ((j <? 0) || (n <=? j))%Z then Raise IndexError
  else match df !! Z.to_nat j with
       | Some r => Ok r
       | None => Raise IndexError
       end.

Definition Buy : Z := 1.
Definition Sell : Z := (-1).
Definition Hold : Z := 0.

(** The two crossover tests, as they are spelled out in
    [get_ma_crossover_signal], [should_buy], [should_sell] and [backtest]. *)
Definition bullish_crossover (ic : IndicatorsConfig) (prev_row last_row : Row) : bool :=
  fle (ma prev_row (short_ma_period ic)) (ma prev_row (long_ma_period ic)) &&
  fgt (ma last_row (short_ma_period ic)) (ma last_row (long_ma_period ic)).

Definition bearish_crossover (ic : IndicatorsConfig) (prev_row last_row : Row) : bool :=
  fge (ma prev_row (short_ma_period ic)) (ma prev_row (long_ma_period ic)) &&
  flt (ma last_row (short_ma_period ic)) (ma last_row (long_ma_period ic)).

(** ** Candles and the indicator library *)


(** A computed column, one entry per row of the frame; [None] is NaN. *)
Abbreviation Column := (list (option Q)).




(** ** [app/data/indicators.py] *)

Module Indicators.








Definition get_ma_crossover_signal (df : DataFrame) (config : Config) : outcome Z :=
  last_row ← iloc df (-1);
  prev_row ← iloc df (-2);
  if bullish_crossover (indicators config) prev_row last_row then Ok 1%Z
  else if bearish_crossover (indicators config) prev_row last_row then Ok (-1)%Z
  else Ok 0%Z.

Definition get_rsi_signal (df : DataFrame) (config : Config) : outcome Z :=
  last_row ← iloc df (-1);
  if flt (rsi last_row) (rsi_buy_threshold (indicators config)) then Ok 1%Z
  else if fgt (rsi last_row) (rsi_sell_threshold (indicators config)) then Ok (-1)%Z
  else Ok 0%Z.

Definition get_combined_signal (df : DataFrame) (config : Config) : outcome Z :=
  ma_signal ← get_ma_crossover_signal df config;
  rsi_signal ← get_rsi_signal df config;
  last_row ← iloc df (-1);
  if (ma_signal =? 1)%Z &&
     ((rsi_signal =? 1)%Z || (fge (rsi last_row) 30 && fle (rsi last_row) 50))
  then Ok 1%Z
  else if (ma_signal =? -1)%Z &&
          ((rsi_signal =? -1)%Z || fge (rsi last_row) 70)
  then Ok (-1)%Z
  else Ok 0%Z.

End Indicators.

(** ** [app/strategy/ma_crossover.py] *)

Module Strategy.

(** [max(self.short_ma_period, self.long_ma_period, self.rsi_period) + 1] *)
Definition min_rows (ic : IndicatorsConfig) : Z :=
  (Z.max (Z.max (short_ma_period ic) (long_ma_period ic)) (rsi_period ic) + 1)%Z.

Definition should_buy (config : Config) (symbol : string) (data : DataFrame) : outcome bool :=
  if (Z.of_nat (length data) <? min_rows (indicators config))%Z then Ok false
  else
    last_row ← iloc data (-1);
    prev_row ← iloc data (-2);
    let ma_crossover := bullish_crossover (indicators config) prev_row last_row in
    let rsi_condition := fge (rsi last_row) 30 && fle (rsi last_row) 50 in
    Ok (ma_crossover && rsi_condition).

Definition should_sell (config : Config) (symbol : string) (data : DataFrame) : outcome bool :=
  if (Z.of_nat (length data) <? min_rows (indicators config))%Z then Ok false
  else
    last_row ← iloc data (-1);
    prev_row ← iloc data (-2);
    let ma_crossover := bearish_crossover (indicators config) prev_row last_row in
    let rsi_condition := fge (rsi last_row) 70 in
    Ok (ma_crossover || rsi_condition).

(** [generate_signals]: [data] and the returned dictionary are dictionaries
    in insertion order, here lists of pairs with distinct keys; the symbols
    are visited in that order and the first exception ends the call. *)
Fixpoint generate_signals (config : Config) (data : list (string * DataFrame))
    : outcome (list (string * Z)) :=
  match data with
  | [] => Ok []
  | (symbol, df) :: rest =>
      signal ← (if (Z.of_nat (length df) <? min_rows (indicators config))%Z
                then Ok 0%Z
                else Indicators.get_combined_signal df config);
      signals ← generate_signals config rest;
      Ok ((symbol, signal) :: signals)
  end.

(** What [generate_signals] stores for a symbol with frame [df]: 0 for a
    frame that is too short, else the combined signal of the frame. *)
Definition frame_signal (config : Config) (df : DataFrame) (s : Z) : Prop :=
  if (Z.of_nat (length df) <? min_rows (indicators config))%Z
  then s = 0%Z
  else Indicators.get_combined_signal df config = Ok s.

(** [BaseStrategy.get_stop_loss] ([app/strategy/base.py]) *)
Definition get_stop_loss (config : Config) (symbol : string) (entry_price : Q) : Q :=
  entry_price * (1 - stop_loss_percentage (trading config) / 100).

(** [BaseStrategy.get_take_profit] *)
Definition get_take_profit (config : Config) (symbol : string) (entry_price : Q) : Q :=
  entry_price * (1 + take_profit_percentage (trading config) / 100).

(** [BaseStrategy.get_position_size]; both divisions are float divisions
    and raise on a zero divisor ([price] is a Python float, as the
    signature says). *)
Definition get_position_size (config : Config) (symbol : string) (price : Q) : outcome Q :=
  let tc := trading config in
  let n := length (pairs tc) in
  if (n =? 0)%nat then Raise ZeroDivisionError
  else
    let position_size :=
      (investment_amount tc * risk_percentage tc / 100) / inject_Z (Z.of_nat n) in
    let position_size := fmin position_size (max_position_size tc) in
    if feq price 0 then Raise ZeroDivisionError
    else Ok (position_size / price).

End Strategy.

(** ** [app/risk/manager.py] *)

Module Risk.

(** The position dictionary built by [add_position]. *)
Record Position : Type := {
  symbol : string;
  amount : Q;
  entry_price : Q;
  stop_loss : Q;
  take_profit : Q;
  current_price : Q;
  profit_loss : Q;
  profit_loss_percentage : Q
}.

(** The attributes set by [RiskManager.__init__]; [positions] is the
    dictionary [self.positions], keyed by symbol. *)
Record RiskManager : Type := {
  config : Config;
  positions : gmap string Position;
  rm_investment_amount : Q;
  rm_risk_percentage : Q;
  rm_max_position_size : Q;
  rm_stop_loss_percentage : Q;
  rm_take_profit_percentage : Q
}.

(** [RiskManager(config)] *)
Definition init (cfg : Config) : RiskManager := {|
  config := cfg;
  positions := ∅;
  rm_investment_amount := investment_amount (trading cfg);
  rm_risk_percentage := risk_percentage (trading cfg);
  rm_max_position_size := max_position_size (trading cfg);
  rm_stop_loss_percentage := stop_loss_percentage (trading cfg);
  rm_take_profit_percentage := take_profit_percentage (trading cfg)
|}.

(** [self.positions = ps], every other attribute kept. *)
Definition set_positions (rm : RiskManager) (ps : gmap string Position) : RiskManager := {|
  config := config rm;
  positions := ps;
  rm_investment_amount := rm_investment_amount rm;
  rm_risk_percentage := rm_risk_percentage rm;
  rm_max_position_size := rm_max_position_size rm;
  rm_stop_loss_percentage := rm_stop_loss_percentage rm;
  rm_take_profit_percentage := rm_take_profit_percentage rm
|}.

Definition calculate_stop_loss (rm : RiskManager) (sym : string) (entry : Q) : Q :=
  entry * (1 - rm_stop_loss_percentage rm / 100).

Definition calculate_take_profit (rm : RiskManager) (sym : string) (entry : Q) : Q :=
  entry * (1 + rm_take_profit_percentage rm / 100).

(** Every operation returns the manager after the call together with what
    the call returned or raised: a raised exception does not undo the
    writes made before it. *)

Definition add_position (rm : RiskManager) (sym : string) (amt entry : Q)
  : RiskManager * outcome Position :=
  let sl := calculate_stop_loss rm sym entry in
  let tp := calculate_take_profit rm sym entry in
  let position := {|
    symbol := sym;
    amount := amt;
    entry_price := entry;
    stop_loss := sl;
    take_profit := tp;
    current_price := entry;
    profit_loss := 0;
    profit_loss_percentage := 0 |} in
  (set_positions rm (<[sym := position]> (positions rm)), Ok position).

Definition not_found (sym : string) : exn :=
  ValueError ("Position for " +:+ sym +:+ " not found").

(** The three writes happen in order; the last one divides by the stored
    entry price, and a float division by zero raises after the first two
    writes were made.  (An entry price stored by the live loop is a
    [numpy.float64], whose division by zero gives [inf] or [nan] instead:
    the properties of that loop are stated for entry prices other than
    zero.) *)
Definition update_position (rm : RiskManager) (sym : string) (price : Q)
  : RiskManager * outcome Position :=
  match positions rm !! sym with
  | None => (rm, Raise (not_found sym))
  | Some position =>
      let p1 := {|
        symbol := symbol position;
        amount := amount position;
        entry_price := entry_price position;
        stop_loss := stop_loss position;
        take_profit := take_profit position;
        current_price := price;
        profit_loss := (price - entry_price position) * amount position;
        profit_loss_percentage := profit_loss_percentage position |} in
      if feq (entry_price position) 0
      then (set_positions rm (<[sym := p1]> (positions rm)), Raise ZeroDivisionError)
      else
        let p2 := {|
          symbol := symbol p1;
          amount := amount p1;
          entry_price := entry_price p1;
          stop_loss := stop_loss p1;
          take_profit := take_profit p1;
          current_price := current_price p1;
          profit_loss := profit_loss p1;
          profit_loss_percentage := (price / entry_price p1 - 1) * 100 |} in
        (set_positions rm (<[sym := p2]> (positions rm)), Ok p2)
  end.

Definition remove_position (rm : RiskManager) (sym : string)
  : RiskManager * outcome Position :=
  match positions rm !! sym with
  | None => (rm, Raise (not_found sym))
  | Some position => (set_positions rm (delete sym (positions rm)), Ok position)
  end.

Definition get_position (rm : RiskManager) (sym : string) : option Position :=
  positions rm !! sym.

Definition check_stop_loss (rm : RiskManager) (sym : string) (price : Q)
  : RiskManager * outcome bool :=
  match positions rm !! sym with
  | None => (rm, Ok false)
  | Some position =>
      if fle price (stop_loss position) then (rm, Ok true) else (rm, Ok false)
  end.

Definition check_take_profit (rm : RiskManager) (sym : string) (price : Q)
  : RiskManager * outcome bool :=
  match positions rm !! sym with
  | None => (rm, Ok false)
  | Some position =>
      if fge price (take_profit position) then (rm, Ok true) else (rm, Ok false)
  end.

(** [calculate_position_size]; both divisions are float divisions and
    raise on a zero divisor ([price] is a Python float, as the signature
    says). *)
Definition calculate_position_size (rm : RiskManager) (sym : string) (price : Q)
  : outcome Q :=
  let n := length (pairs (trading (config rm))) in
  if (n =? 0)%nat then Raise ZeroDivisionError
  else
    let position_size :=
      (rm_investment_amount rm * rm_risk_percentage rm / 100) / inject_Z (Z.of_nat n) in
    let position_size := fmin position_size (rm_max_position_size rm) in
    if feq price 0 then Raise ZeroDivisionError
    else Ok (position_size / price).

(** One turn of the loop of [calculate_portfolio_value]. *)
Definition add_value (prices : gmap string Q) (sym : string) (position : Position)
    (portfolio_value : Q) : Q :=
  match prices !! sym with
  | Some price => portfolio_value + amount position * price
  | None => portfolio_value
  end.

(** [calculate_portfolio_value]: the sum over [self.positions.items()].  In
    exact arithmetic the sum does not depend on the order in which the
    dictionary is visited. *)
Definition calculate_portfolio_value (rm : RiskManager) (prices : gmap string Q) : Q :=
  map_fold (add_value prices) 0 (positions rm).

(** A call of one of the operations on positions. *)
Inductive call : Type :=
| AddPosition (sym : string) (amt entry : Q)
| UpdatePosition (sym : string) (price : Q)
| RemovePosition (sym : string)
| GetPosition (sym : string)
| CheckStopLoss (sym : string) (price : Q)
| CheckTakeProfit (sym : string) (price : Q).

(** The symbol a call names. *)
Definition call_symbol (c : call) : string :=
  match c with
  | AddPosition sym _ _ | UpdatePosition sym _ | RemovePosition sym
  | GetPosition sym | CheckStopLoss sym _ | CheckTakeProfit sym _ => sym
  end.

(** The manager after a call. *)
Definition exec (rm : RiskManager) (c : call) : RiskManager :=
  match c with
  | AddPosition sym amt entry => fst (add_position rm sym amt entry)
  | UpdatePosition sym price => fst (update_position rm sym price)
  | RemovePosition sym => fst (remove_position rm sym)
  | GetPosition sym => rm
  | CheckStopLoss sym price => fst (check_stop_loss rm sym price)
  | CheckTakeProfit sym price => fst (check_take_profit rm sym price)
  end.

(** The manager after a sequence of calls, oldest first. *)
Definition exec_all (rm : RiskManager) (cs : list call) : RiskManager :=
  foldl exec rm cs.

(** [stop_loss < entry_price < take_profit] *)
Definition bracketed (p : Position) : Prop :=
  stop_loss p < entry_price p /\ entry_price p < take_profit p.

(** [stop_loss <= entry_price <= take_profit] *)
Definition within_thresholds (p : Position) : Prop :=
  stop_loss p <= entry_price p /\ entry_price p <= take_profit p.

(** The thresholds of a position entered at a positive price lie on
    either side of that price. *)
Definition guarded (p : Position) : Prop :=
  0 < entry_price p -> within_thresholds p.

(** Every entry price passed to [add_position] in [cs] is positive. *)
Definition positive_entries (cs : list call) : Prop :=
  Forall (fun c => match c with
                   | AddPosition _ _ entry => 0 < entry
                   | _ => True
                   end) cs.

End Risk.

(** ** The threshold formulas in binary64 *)

(** [calculate_stop_loss], [calculate_take_profit] and the three fields
    [add_position] derives from them, evaluated as the program evaluates
    them: a Python [float] is an IEEE 754 binary64, and the primitive
    floats of the kernel compute in that format with the same rounding. *)
Module Double.

Import PrimFloat.

Record Position : Type := {
  entry_price : float;
  stop_loss : float;
  take_profit : float
}.

Definition calculate_stop_loss (stop_loss_percentage entry : float) : float :=
  (entry * (1 - stop_loss_percentage / 100))%float.

Definition calculate_take_profit (take_profit_percentage entry : float) : float :=
  (entry * (1 + take_profit_percentage / 100))%float.

Definition add_position (stop_loss_percentage take_profit_percentage entry : float)
  : Position :=
  {| entry_price := entry;
     stop_loss := calculate_stop_loss stop_loss_percentage entry;
     take_profit := calculate_take_profit take_profit_percentage entry |}.

(** [stop_loss < entry_price < take_profit] *)
Definition bracketed (p : Position) : bool :=
  ltb (stop_loss p) (entry_price p) && ltb (entry_price p) (take_profit p).

(** [stop_loss <= entry_price <= take_profit] *)
Definition within_thresholds (p : Position) : bool :=
  leb (stop_loss p) (entry_price p) && leb (entry_price p) (take_profit p).

Definition positive (x : float) : bool := ltb 0 x.

(** A percentage of about 1e-15 and the smallest positive double (about
    5e-324), both written in hexadecimal, which is exact. *)
Definition tiny_percentage : float := 0x1.203af9ee75616p-50%float.
Definition smallest_price : float := 0x1p-1074%float.

(** A position entered at 100 with both percentages tiny, and a position
    entered at the smallest price with the default percentages 5 and 10. *)
Definition tiny_margin : Position := add_position tiny_percentage tiny_percentage 100.
Definition tiny_entry : Position := add_position 5 10 smallest_price.

End Double.

(** ** [app/bot.py]: [TradingBot.backtest] *)

Module Backtest.

Inductive side : Type := buy | sell.

(** The open position of the replay (a dictionary in the source). *)
Record Position : Type := {
  pos_symbol : string;
  pos_amount : Q;
  entry_price : Q;
  pos_timestamp : Z
}.

(** One ledger entry.  [timestamp] is the index value of the bar the
    trade was made on ([row.name.isoformat()]). *)
Record Trade : Type := {
  id : string;
  symbol : string;
  type : side;
  price : Q;
  amount : Q;
  timestamp : Z;
  status : string
}.

(** The local variables [balance], [position] and [trades]. *)
Record State : Type := {
  balance : Q;
  position : option Position;
  trades : list Trade
}.

(** The dictionary returned by [backtest].  [profit_loss_percentage] is
    [None] where numpy yields NaN (see [backtest]). *)
Record Result : Type := {
  res_symbol : string;
  start_date : string;
  end_date : string;
  timeframe : string;
  initial_balance : Q;
  final_balance : Q;
  profit_loss : Q;
  profit_loss_percentage : option Q;
  res_trades : list Trade
}.

(** The parts of [self] that exist when [backtest] runs. *)
Record TradingBot : Type := {
  config : Config;
  is_running : bool;
  risk_manager : Risk.RiskManager
}.

(** The entry appended by [trades.append({...})]:
    its id is [str(len(trades) + 1)]. *)
Definition new_trade (ts : list Trade) (sym : string) (sd : side)
    (current_price amt : Q) (row : Row) : Trade := {|
  id := pretty (length ts + 1)%nat;
  symbol := sym;
  type := sd;
  price := current_price;
  amount := amt;
  timestamp := name row;
  status := "completed"
|}.

(** The buy branch.  Bars have a positive close; a division by a zero
    close, which numpy answers with an infinity or NaN, is outside the
    model. *)
Definition open_position (sym : string) (row : Row) (st : State) : State :=
  let current_price := close row in
  let amt := (balance st * 0.95) / current_price in
  let cost := amt * current_price in
  {| balance := balance st - cost;
     position := Some {| pos_symbol := sym;
                         pos_amount := amt;
                         entry_price := current_price;
                         pos_timestamp := name row |};
     trades := trades st ++ [new_trade (trades st) sym buy current_price amt row] |}.

(** The body shared by the three sell branches and, with the last row,
    by the closing sale after the loop. *)
Definition close_position (sym : string) (row : Row) (p : Position) (st : State) : State :=
  let current_price := close row in
  let amt := pos_amount p in
  let revenue := amt * current_price in
  {| balance := balance st + revenue;
     position := None;
     trades := trades st ++ [new_trade (trades st) sym sell current_price amt row] |}.

Definition buy_signal (cfg : Config) (prev_row row : Row) : bool :=
  bullish_crossover (indicators cfg) prev_row row &&
  (fge (rsi row) 30 && fle (rsi row) 50).

Definition sell_signal (cfg : Config) (prev_row row : Row) : bool :=
  bearish_crossover (indicators cfg) prev_row row || fge (rsi row) 70.

Definition stop_loss_hit (cfg : Config) (p : Position) (row : Row) : bool :=
  fle (close row) (entry_price p * (1 - stop_loss_percentage (trading cfg) / 100)).

Definition take_profit_hit (cfg : Config) (p : Position) (row : Row) : bool :=
  fge (close row) (entry_price p * (1 + take_profit_percentage (trading cfg) / 100)).

(** One iteration of the loop: the [if] / [elif] chain on rows
    [i - 1] and [i].  The first branch asks for [position is None], the
    three others for [position is not None]; they are tried in the order
    of the source: buy, sell signal, stop loss, take profit. *)
Definition step (cfg : Config) (sym : string) (prev_row row : Row) (st : State) : State :=
  match position st with
  | None =>
      if buy_signal cfg prev_row row then open_position sym row st else st
  | Some p =>
      if sell_signal cfg prev_row row then close_position sym row p st
      else if stop_loss_hit cfg p row then close_position sym row p st
      else if take_profit_hit cfg p row then close_position sym row p st
      else st
  end.

(** [for i in range(1, len(df))] from row [prev_row] on. *)
Fixpoint run (cfg : Config) (sym : string) (prev_row : Row) (rows : list Row)
    (st : State) : State :=
  match rows with
  | [] => st
  | row :: rest => run cfg sym row rest (step cfg sym prev_row row st)
  end.

Definition loop (cfg : Config) (sym : string) (df : DataFrame) (st : State) : State :=
  match df with
  | [] => st
  | first_row :: rest => run cfg sym first_row rest st
  end.

(** "Sell any remaining position at the last price". *)
Definition liquidate (sym : string) (df : DataFrame) (st : State) : outcome State :=
  match position st with
  | None => Ok st
  | Some p =>
      last_row ← iloc df (-1);
      Ok (close_position sym last_row p st)
  end.

(** [backtest] from the frame with indicators on.  The closing division
    [profit_loss / initial_balance] is a division of Python floats while
    no trade was made, and raises on a zero balance; after a trade the
    balance is a [numpy.float64], and the division of the (then zero)
    profit by a zero balance gives NaN. *)
Definition backtest (self : TradingBot) (sym start_d end_d tf : string)
    (initial : Q) (df_with_indicators : DataFrame) : outcome Result :=
  let st0 := {| balance := initial; position := None; trades := [] |} in
  let st1 := loop (config self) sym df_with_indicators st0 in
  st2 ← liquidate sym df_with_indicators st1;
  let pl := balance st2 - initial in
  pct ← (if feq initial 0
         then match trades st2 with
              | [] => Raise ZeroDivisionError
              | _ :: _ => Ok None
              end
         else Ok (Some ((pl / initial) * 100)));
  Ok {| res_symbol := sym;
        start_date := start_d;
        end_date := end_d;
        timeframe := tf;
        initial_balance := initial;
        final_balance := balance st2;
        profit_loss := pl;
        profit_loss_percentage := pct;
        res_trades := trades st2 |}.

(** The local variables when the loop is entered. *)
Definition start (initial : Q) : State :=
  {| balance := initial; position := None; trades := [] |}.

(** What one ledger entry did to the balance: [balance -= amount * price]
    for a buy, [balance += amount * price] for a sell. *)
Definition apply_trade (b : Q) (t : Trade) : Q :=
  match type t with
  | buy => b - amount t * price t
  | sell => b + amount t * price t
  end.

(** The balance after the entries of a ledger, oldest first. *)
Definition replay (initial : Q) (ts : list Trade) : Q :=
  foldl apply_trade initial ts.

(** A ledger made of completed rounds: a buy followed by the sell of the
    same amount, any number of times. *)
Fixpoint rounds (ts : list Trade) : bool :=
  match ts with
  | [] => true
  | b :: ts' =>
      match ts' with
      | [] => false
      | s :: rest =>
          match type b, type s with
          | buy, sell => Qeq_bool (amount b) (amount s) && rounds rest
          | _, _ => false
          end
      end
  end.

(** The state between iterations: without a position the ledger is made
    of rounds; with one, it is made of rounds followed by the buy that
    opened the position. *)
Definition settled (st : State) : Prop :=
  match position st with
  | None => rounds (trades st) = true
  | Some p =>
      exists ts b, trades st = ts ++ [b] /\
        rounds ts = true /\
        type b = buy /\
        amount b = pos_amount p
  end.

(** Ids count the ledger entries from 1 and every timestamp is the
    timestamp of a row of [df]. *)
Definition ledger_stamped (df : DataFrame) (ts : list Trade) : Prop :=
  forall (i : nat) (t : Trade), ts !! i = Some t ->
    id t = pretty (i + 1)%nat /\ exists row, row ∈ df /\ timestamp t = name row.

(** Every trade is made for [sym], stamped with the timestamp of a row of
    [df] and priced at the close of that row. *)
Definition ledger_at_closes (sym : string) (df : DataFrame) (ts : list Trade) : Prop :=
  Forall (fun t => symbol t = sym /\ status t = "completed"%string /\
                   exists row, row ∈ df /\ timestamp t = name row /\ price t = close row) ts.

End Backtest.

(** ** The exchange and the notifier *)

(** What a call of the live side can raise: an exception of Python itself,
    or whatever the exchange or the notifier raised. *)
Inductive raised : Type :=
| Builtin (e : exn)
| External (what : string).

Inductive result (A : Type) : Type :=
| Done (a : A)
| Failed (e : raised).

Arguments Done {A} a.
Arguments Failed {A} e.

(** A Python dictionary in insertion order: a list of pairs with distinct
    keys.  Writing under a key that is present replaces the value in
    place; writing under a new key appends. *)
Fixpoint dict_get {A : Type} (k : string) (d : list (string * A)) : option A :=
  match d with
  | [] => None
  | (k', v) :: rest => if decide (k' = k) then Some v else dict_get k rest
  end.

Fixpoint dict_set {A : Type} (k : string) (v : A) (d : list (string * A))
    : list (string * A) :=
  match d with
  | [] => [(k, v)]
  | (k', v') :: rest =>
      if decide (k' = k) then (k, v) :: rest else (k', v') :: dict_set k v rest
  end.

(** ** [app/execution/order.py] *)

Module Orders.

(** The fields read from an order dictionary returned by the exchange;
    its price may be missing. *)
Record ExchangeOrder : Type := {
  ex_id : string;
  ex_price : option Q;
  ex_status : string
}.

(** The calls [OrderManager] makes through [BinanceAPI], which passes them
    on to the exchange and re-raises what it raises.  The exchange is
    outside the repository: what it answers is a parameter. *)
Record Exchange : Type := {
  create_market_buy_order : string -> Q -> result ExchangeOrder;
  create_market_sell_order : string -> Q -> result ExchangeOrder;
  create_limit_buy_order : string -> Q -> Q -> result ExchangeOrder;
  create_limit_sell_order : string -> Q -> Q -> result ExchangeOrder;
  exchange_cancel_order : string -> string -> result unit;
  fetch_order : string -> string -> result ExchangeOrder
}.

(** The order dictionary stored by [create_buy_order] and
    [create_sell_order]. *)
Record Order : Type := {
  id : string;
  exchange_id : string;
  symbol : string;
  type : Backtest.side;
  amount : Q;
  price : option Q;
  status : string;
  timestamp : string
}.

(** [self.orders] *)
Record OrderManager : Type := {
  orders : list (string * Order)
}.

Definition init : OrderManager := {| orders := [] |}.

(** The body shared by [create_buy_order] and [create_sell_order] once the
    exchange has answered.  [order_id] is the fresh [str(uuid.uuid4())] and
    [now] the [datetime.now().isoformat()] of the call. *)
Definition store_order (om : OrderManager) (order_id now sym : string)
    (sd : Backtest.side) (amt : Q) (limit : option Q) (order : ExchangeOrder)
    : OrderManager * result Order :=
  let stored := {|
    id := order_id;
    exchange_id := ex_id order;
    symbol := sym;
    type := sd;
    amount := amt;
    price := match limit with Some p => Some p | None => ex_price order end;
    status := ex_status order;
    timestamp := now |} in
  ({| orders := dict_set order_id stored (orders om) |}, Done stored).

Definition create_buy_order (ex : Exchange) (om : OrderManager)
    (order_id now sym : string) (amt : Q) (limit : option Q)
    : OrderManager * result Order :=
  match (match limit with
         | None => create_market_buy_order ex sym amt
         | Some p => create_limit_buy_order ex sym amt p
         end) with
  | Failed e => (om, Failed e)
  | Done order => store_order om order_id now sym Backtest.buy amt limit order
  end.

Definition create_sell_order (ex : Exchange) (om : OrderManager)
    (order_id now sym : string) (amt : Q) (limit : option Q)
    : OrderManager * result Order :=
  match (match limit with
         | None => create_market_sell_order ex sym amt
         | Some p => create_limit_sell_order ex sym amt p
         end) with
  | Failed e => (om, Failed e)
  | Done order => store_order om order_id now sym Backtest.sell amt limit order
  end.

Definition order_not_found (order_id : string) : raised :=
  Builtin (ValueError ("Order " +:+ order_id +:+ " not found")).

(** [order["status"] = st] on the stored dictionary. *)
Definition with_status (order : Order) (st : string) : Order := {|
  id := id order;
  exchange_id := exchange_id order;
  symbol := symbol order;
  type := type order;
  amount := amount order;
  price := price order;
  status := st;
  timestamp := timestamp order |}.

Definition cancel_order (ex : Exchange) (om : OrderManager) (order_id : string)
    : OrderManager * result Order :=
  match dict_get order_id (orders om) with
  | None => (om, Failed (order_not_found order_id))
  | Some order =>
      match exchange_cancel_order ex (exchange_id order) (symbol order) with
      | Failed e => (om, Failed e)
      | Done _ =>
          let order' := with_status order "canceled" in
          ({| orders := dict_set order_id order' (orders om) |}, Done order')
      end
  end.

Definition get_order (ex : Exchange) (om : OrderManager) (order_id : string)
    : OrderManager * result Order :=
  match dict_get order_id (orders om) with
  | None => (om, Failed (order_not_found order_id))
  | Some order =>
      match fetch_order ex (exchange_id order) (symbol order) with
      | Failed e => (om, Failed e)
      | Done binance_order =>
          let order' := with_status order (ex_status binance_order) in
          ({| orders := dict_set order_id order' (orders om) |}, Done order')
      end
  end.

(** [order["status"] in ["closed", "filled", "canceled"]] *)
Definition is_closed (order : Order) : bool :=
  bool_decide (status order ∈ ["closed"; "filled"; "canceled"]%string).

Definition get_closed_orders (om : OrderManager) : list Order :=
  filter (fun order => is_closed order = true) (map snd (orders om)).

Definition get_all_orders (om : OrderManager) : list Order :=
  map snd (orders om).

End Orders.

(** ** [app/bot.py]: the live loop of [TradingBot.run] *)

Module Live.

(** The notifications sent from the loop over the signals: a signal
    notification (with the two averages and the RSI of the last row), a
    trade notification, and the status notifications of a triggered stop
    loss or take profit.  The text made of them is the notifier's
    business. *)
Inductive note : Type :=
| SignalNote (kind : Backtest.side) (sym : string) (price ma_short ma_long rsi_value : Q)
| TradeNote (kind : Backtest.side) (sym : string) (amt price : Q)
| StopLossNote (sym : string) (price : Q)
| TakeProfitNote (sym : string) (price : Q).

(** [self.telegram_notifier]: [None], or a notifier whose sends may
    raise. *)
Abbreviation Notifier := (option (note -> result unit)).

(** [if self.telegram_notifier: await ...; await ...]: the notes are sent
    in order and the first failure ends the sequence. *)
Fixpoint send_all (notifier : Notifier) (notes : list note) : result unit :=
  match notifier with
  | None => Done tt
  | Some send =>
      match notes with
      | [] => Done tt
      | n :: rest =>
          match send n with
          | Failed e => Failed e
          | Done _ => send_all notifier rest
          end
      end
  end.

(** The parts of the bot the loop over the signals works on. *)
Record Bot : Type := {
  config : Config;
  risk_manager : Risk.RiskManager;
  order_manager : Orders.OrderManager
}.

Definition with_risk (bot : Bot) (rm : Risk.RiskManager) : Bot :=
  {| config := config bot; risk_manager := rm; order_manager := order_manager bot |}.

Definition with_orders (bot : Bot) (om : Orders.OrderManager) : Bot :=
  {| config := config bot; risk_manager := risk_manager bot; order_manager := om |}.

(** The three places that sell a position: create the sell order, remove
    the position, notify. *)
Definition sell_out (ex : Orders.Exchange) (notifier : Notifier) (bot : Bot)
    (order_id now sym : string) (amt : Q) (notes : list note) : Bot * result unit :=
  match Orders.create_sell_order ex (order_manager bot) order_id now sym amt None with
  | (om, Failed e) => (with_orders bot om, Failed e)
  | (om, Done _) =>
      let bot1 := with_orders bot om in
      match Risk.remove_position (risk_manager bot1) sym with
      | (rm, Raise e) => (with_risk bot1 rm, Failed (Builtin e))
      | (rm, Ok _) => (with_risk bot1 rm, send_all notifier notes)
      end
  end.

(** One turn of [for symbol, signal in signals.items()], with [df] the
    frame [data[symbol]]; [order_id] and [now] are the uuid and the time
    an order created in this turn gets.  The close read from the frame is
    a numpy float, for which a division by zero gives [inf] or [nan]
    instead of raising: the turn is modelled for a last close and entry
    prices other than zero, and the properties that depend on a division
    say so. *)
Definition process_signal (ex : Orders.Exchange) (notifier : Notifier) (bot : Bot)
    (order_id now sym : string) (signal : Z) (df : DataFrame) : Bot * result unit :=
  match iloc df (-1) with
  | Raise e => (bot, Failed (Builtin e))
  | Ok last_row =>
      let current_price := close last_row in
      let ic := indicators (config bot) in
      let ma_short := ma last_row (short_ma_period ic) in
      let ma_long := ma last_row (long_ma_period ic) in
      match Risk.get_position (risk_manager bot) sym with
      | None =>
          if (signal =? 1)%Z then
            match Risk.calculate_position_size (risk_manager bot) sym current_price with
            | Raise e => (bot, Failed (Builtin e))
            | Ok amt =>
                match Orders.create_buy_order ex (order_manager bot) order_id now
                        sym amt None with
                | (om, Failed e) => (with_orders bot om, Failed e)
                | (om, Done _) =>
                    let bot1 := with_orders bot om in
                    let rm := fst (Risk.add_position (risk_manager bot1) sym amt
                                     current_price) in
                    (with_risk bot1 rm,
                     send_all notifier
                       [SignalNote Backtest.buy sym current_price ma_short ma_long
                          (rsi last_row);
                        TradeNote Backtest.buy sym amt current_price])
                end
            end
          else (bot, Done tt)
      | Some position =>
          if (signal =? -1)%Z then
            sell_out ex notifier bot order_id now sym (Risk.amount position)
              [SignalNote Backtest.sell sym current_price ma_short ma_long (rsi last_row);
               TradeNote Backtest.sell sym (Risk.amount position) current_price]
          else
            match Risk.update_position (risk_manager bot) sym current_price with
            | (rm, Raise e) => (with_risk bot rm, Failed (Builtin e))
            | (rm, Ok _) =>
                let bot1 := with_risk bot rm in
                match snd (Risk.check_stop_loss rm sym current_price) with
                | Raise e => (bot1, Failed (Builtin e))
                | Ok true =>
                    sell_out ex notifier bot1 order_id now sym (Risk.amount position)
                      [StopLossNote sym current_price;
                       TradeNote Backtest.sell sym (Risk.amount position) current_price]
                | Ok false =>
                    match snd (Risk.check_take_profit rm sym current_price) with
                    | Raise e => (bot1, Failed (Builtin e))
                    | Ok true =>
                        sell_out ex notifier bot1 order_id now sym (Risk.amount position)
                          [TakeProfitNote sym current_price;
                           TradeNote Backtest.sell sym (Risk.amount position)
                             current_price]
                    | Ok false => (bot1, Done tt)
                    end
                end
            end
      end
  end.

(** The positions of the bot. *)
Definition positions (bot : Bot) : gmap string Risk.Position :=
  Risk.positions (risk_manager bot).

(** Between [bot] and [bot'] one order of the given side, symbol and
    amount was stored under [order_id], and no other order was touched. *)
Definition placed (bot bot' : Bot) (order_id : string) (sd : Backtest.side)
    (sym : string) (amt : Q) : Prop :=
  (exists o, dict_get order_id (Orders.orders (order_manager bot')) = Some o /\
     Orders.type o = sd /\ Orders.symbol o = sym /\ Orders.amount o = amt) /\
  forall other, other <> order_id ->
    dict_get other (Orders.orders (order_manager bot')) =
    dict_get other (Orders.orders (order_manager bot)).

(** A position with a positive entry price that lies between its
    thresholds, ends included. *)
Definition sound (p : Risk.Position) : Prop :=
  0 < Risk.entry_price p /\ Risk.within_thresholds p.

(** The exchange refuses the market sell order. *)
Definition sell_refused (ex : Orders.Exchange) (sym : string) (amt : Q) : Prop :=
  exists e, Orders.create_market_sell_order ex sym amt = Failed e.

(** A reason to sell a held position at [price]: a sell signal, or a price
    that reached the stop loss or the take profit. *)
Definition exit_due (p : Risk.Position) (signal : Z) (price : Q) : Prop :=
  signal = (-1)%Z \/ price <= Risk.stop_loss p \/ Risk.take_profit p <= price.

End Live.

(** ** Sample frames (default configuration: averages over 20 and 50 bars) *)

(** A row with the given timestamp, close, short and long average and
    RSI. *)
Definition bar (ts : Z) (c short long r : Q) : Row :=
  {| name := ts; close := c;
     ma := fun n => if (n =? 20)%Z then short else if (n =? 50)%Z then long else 0;
     rsi := r |}.

(** No crossover (the short average stays above the long one), RSI
    rising to 75. *)
Definition overbought_prev : Row := bar 0 100 101 100 60.
Definition overbought_last : Row := bar 900000 100 101 100 75.

(** A bullish crossover (short average from 99 to 101, long average at
    100) with an RSI of 20, below the band [30, 50]. *)
Definition oversold_prev : Row := bar 0 100 99 100 25.
Definition oversold_last : Row := bar 900000 100 101 100 20.

(** Four bars: a bullish crossover with RSI 40 on the second, an RSI of 75
    on the third, nothing on the fourth. *)
Definition bar0 : Row := bar 0 100 99 100 45.
Definition bar1 : Row := bar 900000 100 101 100 40.
Definition bar2 : Row := bar 1800000 105 102 100 75.
Definition bar3 : Row := bar 2700000 110 102 100 60.

(** A later bar closing at 120, well above a take profit set at 10% over
    an entry at 100. *)
Definition bar4 : Row := bar 3600000 120 102 100 60.

(** Fifty-one rows, one more than the longest period of the default
    configuration, as [generate_signals] asks for: fifty times [bar0],
    then the bullish crossover of [bar1] with its RSI of 40. *)
Definition crossover_frame : list Row := replicate 50 bar0 ++ [bar1].

Definition sample_bot : Backtest.TradingBot :=
  {| Backtest.config := default_config;
     Backtest.is_running := false;
     Backtest.risk_manager := Risk.init default_config |}.






(** A configuration without lookback: all three periods are 0. *)
Definition no_periods : Config :=
  {| indicators := {|
       short_ma_period := 0;
       long_ma_period := 0;
       rsi_period := 0;
       rsi_buy_threshold := 50;
       rsi_sell_threshold := 70 |};
     trading := trading default_config |}.

(** An exchange that fills market orders at 100 under the id "17", accepts
    cancellations and offers nothing else. *)
Definition sample_exchange : Orders.Exchange :=
  {| Orders.create_market_buy_order := fun _ _ =>
       Done {| Orders.ex_id := "17"; Orders.ex_price := Some 100;
               Orders.ex_status := "open" |};
     Orders.create_market_sell_order := fun _ _ =>
       Done {| Orders.ex_id := "18"; Orders.ex_price := Some 100;
               Orders.ex_status := "closed" |};
     Orders.create_limit_buy_order := fun _ _ _ => Failed (External "not offered");
     Orders.create_limit_sell_order := fun _ _ _ => Failed (External "not offered");
     Orders.exchange_cancel_order := fun _ _ => Done tt;
     Orders.fetch_order := fun _ _ => Failed (External "not offered") |}.

(** The order manager after one market buy of 2 BTC/USDT. *)
Definition sample_orders : Orders.OrderManager :=
  fst (Orders.create_buy_order sample_exchange Orders.init "id-1" "2024-01-01T00:00:00"
         "BTC/USDT" 2 None).

Definition sample_order : Orders.Order :=
  {| Orders.id := "id-1";
     Orders.exchange_id := "17";
     Orders.symbol := "BTC/USDT";
     Orders.type := Backtest.buy;
     Orders.amount := 2;
     Orders.price := Some 100;
     Orders.status := "open";
     Orders.timestamp := "2024-01-01T00:00:00" |}.

(** A bot without positions and orders, and the same bot holding 2
    BTC/USDT bought at 100 (stop loss at 95, take profit at 110). *)
Definition live_bot : Live.Bot :=
  {| Live.config := default_config;
     Live.risk_manager := Risk.init default_config;
     Live.order_manager := Orders.init |}.

Definition holding_bot : Live.Bot :=
  {| Live.config := default_config;
     Live.risk_manager :=
       fst (Risk.add_position (Risk.init default_config) "BTC/USDT" 2 100);
     Live.order_manager := sample_orders |}.

(** * Properties *)

(** ** Comparisons *)

Lemma fle_spec x y : fle x y = true <-> x <= y.
Proof. apply Qle_bool_iff. Qed.

Lemma flt_spec x y : flt x y = true <-> x < y.
Proof.
  unfold flt. rewrite negb_true_iff. split.
  - intros H. apply Qnot_le_lt. intros Hle.
    apply Qle_bool_iff in Hle. congruence.
  - intros H. destruct (Qle_bool y x) eqn:E; [|reflexivity].
    apply Qle_bool_iff in E. exfalso. apply (Qlt_not_le _ _ H E).
Qed.

Lemma fge_spec x y : fge x y = true <-> y <= x.
Proof. apply fle_spec. Qed.

Lemma fgt_spec x y : fgt x y = true <-> y < x.
Proof. apply flt_spec. Qed.

Lemma feq_spec x y : feq x y = true <-> x == y.
Proof. apply Qeq_bool_iff. Qed.

Lemma bullish_spec ic prev_row last_row :
  bullish_crossover ic prev_row last_row = true <->
  ma prev_row (short_ma_period ic) <= ma prev_row (long_ma_period ic) /\
  ma last_row (long_ma_period ic) < ma last_row (short_ma_period ic).
Proof.
  unfold bullish_crossover.
  rewrite andb_true_iff, fle_spec, fgt_spec. reflexivity.
Qed.

Lemma bearish_spec ic prev_row last_row :
  bearish_crossover ic prev_row last_row = true <->
  ma prev_row (long_ma_period ic) <= ma prev_row (short_ma_period ic) /\
  ma last_row (short_ma_period ic) < ma last_row (long_ma_period ic).
Proof.
  unfold bearish_crossover.
  rewrite andb_true_iff, fge_spec, flt_spec. reflexivity.
Qed.

(** A bar cannot close both crossovers: the short average of the current
    bar is either above or below the long one. *)
Lemma crossovers_exclusive ic prev_row last_row :
  bullish_crossover ic prev_row last_row = true ->
  bearish_crossover ic prev_row last_row = false.
Proof.
  intros Hb. apply bullish_spec in Hb as [_ Hb].
  destruct (bearish_crossover ic prev_row last_row) eqn:E; [|reflexivity].
  apply bearish_spec in E as [_ E]. exfalso.
  apply (Qlt_irrefl (ma last_row (short_ma_period ic))).
  eapply Qlt_trans; eassumption.
Qed.

(** ** Row access *)

Lemma iloc_final (rows : list Row) (last_row : Row) :
  iloc (rows ++ [last_row]) (-1) = Ok last_row.
Proof.
  unfold iloc. rewrite length_app. cbn [length].
  replace (Z.of_nat (length rows + 1) + -1)%Z
    with (Z.of_nat (length rows)) by lia.
  cbn [Z.ltb Z.compare].
  destruct (Z.ltb_spec (Z.of_nat (length rows)) 0); [lia|].
  destruct (Z.leb_spec (Z.of_nat (length rows + 1)) (Z.of_nat (length rows))); [lia|].
  cbn [orb]. rewrite Nat2Z.id.
  rewrite lookup_app_r by lia.
  replace (length rows - length rows)%nat with 0%nat by lia.
  reflexivity.
Qed.

Lemma iloc_last (rows : list Row) (prev_row last_row : Row) :
  iloc (rows ++ [prev_row; last_row]) (-1) = Ok last_row.
Proof.
  change (rows ++ [prev_row; last_row]) with (rows ++ [prev_row] ++ [last_row]).
  rewrite app_assoc. apply iloc_final.
Qed.

Lemma iloc_prev (rows : list Row) (prev_row last_row : Row) :
  iloc (rows ++ [prev_row; last_row]) (-2) = Ok prev_row.
Proof.
  unfold iloc. rewrite length_app. cbn [length].
  replace (Z.of_nat (length rows + 2) + -2)%Z
    with (Z.of_nat (length rows)) by lia.
  cbn [Z.ltb Z.compare].
  destruct (Z.ltb_spec (Z.of_nat (length rows)) 0); [lia|].
  destruct (Z.leb_spec (Z.of_nat (length rows + 2)) (Z.of_nat (length rows))); [lia|].
  cbn [orb]. rewrite Nat2Z.id.
  rewrite lookup_app_r by lia.
  replace (length rows - length rows)%nat with 0%nat by lia.
  reflexivity.
Qed.

(** ** The signal rules *)

(** What the three-valued signal reduces to on a frame that ends with the
    rows [prev_row] and [last_row]. *)
Lemma get_combined_signal_eq (rows : list Row) (prev_row last_row : Row) (cfg : Config) :
  Indicators.get_combined_signal (rows ++ [prev_row; last_row]) cfg =
  let ic := indicators cfg in
  if bullish_crossover ic prev_row last_row &&
     (flt (rsi last_row) (rsi_buy_threshold ic) ||
      (fge (rsi last_row) 30 && fle (rsi last_row) 50))
  then Ok Buy
  else if bearish_crossover ic prev_row last_row &&
          ((negb (flt (rsi last_row) (rsi_buy_threshold ic)) &&
            fgt (rsi last_row) (rsi_sell_threshold ic)) ||
           fge (rsi last_row) 70)
  then Ok Sell
  else Ok Hold.
Proof.
  unfold Indicators.get_combined_signal, Indicators.get_ma_crossover_signal,
    Indicators.get_rsi_signal.
  rewrite iloc_last, iloc_prev. cbn [mbind outcome_bind].
  destruct (bullish_crossover (indicators cfg) prev_row last_row) eqn:Hbull.
  - rewrite (crossovers_exclusive _ _ _ Hbull).
    destruct (flt (rsi last_row) (rsi_buy_threshold (indicators cfg))); cbn.
    + reflexivity.
    + destruct (fgt (rsi last_row) (rsi_sell_threshold (indicators cfg))); cbn;
        destruct (fge (rsi last_row) 30 && fle (rsi last_row) 50); reflexivity.
  - destruct (bearish_crossover (indicators cfg) prev_row last_row);
      destruct (flt (rsi last_row) (rsi_buy_threshold (indicators cfg)));
      destruct (fgt (rsi last_row) (rsi_sell_threshold (indicators cfg)));
      cbn; try reflexivity;
      destruct (fge (rsi last_row) 70); reflexivity.
Qed.

(** C1, as stated, fails for the combined signal: with an RSI of 75 and no
    bearish crossover [get_combined_signal] answers Hold, not Sell. *)
Lemma combined_signal_sell_needs_crossover :
  ~ (Indicators.get_combined_signal [overbought_prev; overbought_last] default_config = Ok Sell
     <->
     (ma overbought_prev 50 <= ma overbought_prev 20 /\
      ma overbought_last 20 < ma overbought_last 50) \/
     70 <= rsi overbought_last).
Proof.
  intros [_ H].
  assert (Hrsi : 70 <= rsi overbought_last) by (cbn; lra).
  specialize (H (or_intror Hrsi)). vm_compute in H. discriminate H.
Qed.

(** C1 (amended).  On a frame ending with [prev_row], [last_row]:
    - [get_combined_signal] returns Sell iff there is a bearish crossover
      AND the RSI is overbought (at least 70, or above the configured sell
      threshold without being below the configured buy threshold);
    - [should_sell] returns true iff the frame has enough rows and there is
      a bearish crossover OR the RSI is at least 70;
    - the backtest's sell test holds iff there is a bearish crossover OR the
      RSI is at least 70;
    - with an RSI of at least 70 and no bearish crossover,
      [get_combined_signal] returns Buy iff there is a bullish crossover and
      the RSI is below the configured buy threshold, and Hold otherwise.
    So an RSI of at least 70 alone, without a bearish crossover, sells in
    [should_sell] and in the backtest, and never sells in the combined
    signal. *)
Theorem sell_rule (cfg : Config) (sym : string) (rows : list Row) (prev_row last_row : Row) :
  let ic := indicators cfg in
  let df := rows ++ [prev_row; last_row] in
  let bearish :=
    ma prev_row (long_ma_period ic) <= ma prev_row (short_ma_period ic) /\
    ma last_row (short_ma_period ic) < ma last_row (long_ma_period ic) in
  let bullish :=
    ma prev_row (short_ma_period ic) <= ma prev_row (long_ma_period ic) /\
    ma last_row (long_ma_period ic) < ma last_row (short_ma_period ic) in
  (Indicators.get_combined_signal df cfg = Ok Sell <->
     bearish /\
     (70 <= rsi last_row \/
      (rsi_sell_threshold ic < rsi last_row /\ rsi_buy_threshold ic <= rsi last_row))) /\
  (Strategy.should_sell cfg sym df = Ok true <->
     (Strategy.min_rows ic <= Z.of_nat (length df))%Z /\
     (bearish \/ 70 <= rsi last_row)) /\
  (Backtest.sell_signal cfg prev_row last_row = true <->
     bearish \/ 70 <= rsi last_row) /\
  (70 <= rsi last_row -> ~ bearish ->
     (Indicators.get_combined_signal df cfg = Ok Buy <->
        bullish /\ rsi last_row < rsi_buy_threshold ic) /\
     (Indicators.get_combined_signal df cfg = Ok Hold <->
        ~ (bullish /\ rsi last_row < rsi_buy_threshold ic))).
Proof.
  intros ic df bearish bullish.
  assert (Hsell : Backtest.sell_signal cfg prev_row last_row = true <->
                  bearish \/ 70 <= rsi last_row).
  { unfold Backtest.sell_signal.
    rewrite orb_true_iff, bearish_spec, fge_spec. reflexivity. }
  split; [|split; [|split]].
  - subst df. rewrite get_combined_signal_eq. cbn zeta. fold ic.
    destruct (bullish_crossover ic prev_row last_row) eqn:Hbull.
    + pose proof (crossovers_exclusive _ _ _ Hbull) as Hbear. rewrite Hbear.
      assert (Hnb : ~ bearish).
      { intros Hb. apply bearish_spec in Hb. fold ic in Hbear. congruence. }
      cbn [andb].
      destruct (_ || _); split; try discriminate; intros [Hb _]; tauto.
    + cbn [andb].
      destruct (bearish_crossover ic prev_row last_row) eqn:Hbear; cbn [andb].
      * assert (Hb : bearish) by (apply bearish_spec; exact Hbear).
        destruct (_ || _) eqn:E.
        -- split; [intros _|reflexivity]. split; [exact Hb|].
           apply orb_true_iff in E as [E|E].
           ++ apply andb_true_iff in E as [E1 E2]. right.
              apply fgt_spec in E2. split; [exact E2|].
              apply negb_true_iff in E1.
              apply Qnot_lt_le. intros Hlt. apply flt_spec in Hlt. congruence.
           ++ left. apply fge_spec. exact E.
        -- split; [discriminate|]. intros [_ H]. exfalso.
           apply orb_false_iff in E as [E1 E2].
           destruct H as [H|[H1 H2]].
           ++ apply fge_spec in H. congruence.
           ++ apply fgt_spec in H1. rewrite H1, andb_true_r in E1.
              apply negb_false_iff, flt_spec in E1.
              apply (Qlt_not_le _ _ E1 H2).
      * split; [discriminate|]. intros [Hb _].
        apply bearish_spec in Hb. fold ic in Hb. congruence.
  - subst df. unfold Strategy.should_sell. fold ic.
    destruct (Z.ltb_spec (Z.of_nat (length (rows ++ [prev_row; last_row])))
                (Strategy.min_rows ic)) as [Hlt|Hge].
    + split; [discriminate|]. intros [H _]. lia.
    + rewrite iloc_last, iloc_prev. cbn [mbind outcome_bind].
      change (bearish_crossover ic prev_row last_row || fge (rsi last_row) 70)
        with (Backtest.sell_signal cfg prev_row last_row).
      split.
      * intros H. split; [exact Hge|]. apply Hsell. congruence.
      * intros [_ H]. apply Hsell in H. rewrite H. reflexivity.
  - exact Hsell.
  - intros Hrsi Hnb. subst df. rewrite get_combined_signal_eq. cbn zeta. fold ic.
    assert (H50 : fle (rsi last_row) 50 = false).
    { destruct (fle (rsi last_row) 50) eqn:E; [|reflexivity].
      apply fle_spec in E. exfalso. lra. }
    assert (Hbear : bearish_crossover ic prev_row last_row = false).
    { destruct (bearish_crossover ic prev_row last_row) eqn:E; [|reflexivity].
      apply bearish_spec in E. contradiction. }
    rewrite H50, Hbear, andb_false_r, orb_false_r. cbn [andb].
    destruct (bullish_crossover ic prev_row last_row) eqn:Hbull;
      destruct (flt (rsi last_row) (rsi_buy_threshold ic)) eqn:Hlow; cbn [andb].
    + apply bullish_spec in Hbull. apply flt_spec in Hlow.
      split; split; try reflexivity; try discriminate.
      * intros _. split; assumption.
      * intros H. exfalso. apply H. split; assumption.
    + split; split; try reflexivity; try discriminate.
      * intros [_ H]. apply flt_spec in H. congruence.
      * intros _ [_ H]. apply flt_spec in H. congruence.
    + split; split; try reflexivity; try discriminate.
      * intros [H _]. apply bullish_spec in H. fold ic in H. congruence.
      * intros _ [H _]. apply bullish_spec in H. fold ic in H. congruence.
    + split; split; try reflexivity; try discriminate.
      * intros [H _]. apply bullish_spec in H. fold ic in H. congruence.
      * intros _ [H _]. apply bullish_spec in H. fold ic in H. congruence.
Qed.

(** C2, as stated, fails for the combined signal: on a bullish crossover
    with an RSI of 20, outside [30, 50] but below the configured buy
    threshold (50), [get_combined_signal] answers Buy. *)
Lemma combined_signal_buys_below_band :
  ~ (Indicators.get_combined_signal [oversold_prev; oversold_last] default_config = Ok Buy
     <->
     ma oversold_prev 20 <= ma oversold_prev 50 /\
     ma oversold_last 50 < ma oversold_last 20 /\
     30 <= rsi oversold_last /\ rsi oversold_last <= 50).
Proof.
  intros [H _].
  assert (Hbuy : Indicators.get_combined_signal [oversold_prev; oversold_last]
                   default_config = Ok Buy) by (vm_compute; reflexivity).
  destruct (H Hbuy) as (_ & _ & Hband & _).
  cbn in Hband. lra.
Qed.

(** C2 (amended).  On a frame ending with [prev_row], [last_row]:
    - [get_combined_signal] returns Buy iff there is a bullish crossover
      AND the RSI is below the configured buy threshold or inside the
      closed band [30, 50];
    - [should_buy] returns true iff the frame has enough rows, there is a
      bullish crossover and the RSI is inside [30, 50];
    - the backtest's buy test holds iff there is a bullish crossover and
      the RSI is inside [30, 50].
    The band is closed: 30 and 50 are inside. *)
Theorem buy_rule (cfg : Config) (sym : string) (rows : list Row) (prev_row last_row : Row) :
  let ic := indicators cfg in
  let df := rows ++ [prev_row; last_row] in
  let bullish :=
    ma prev_row (short_ma_period ic) <= ma prev_row (long_ma_period ic) /\
    ma last_row (long_ma_period ic) < ma last_row (short_ma_period ic) in
  let in_band := 30 <= rsi last_row /\ rsi last_row <= 50 in
  (Indicators.get_combined_signal df cfg = Ok Buy <->
     bullish /\ (rsi last_row < rsi_buy_threshold ic \/ in_band)) /\
  (Strategy.should_buy cfg sym df = Ok true <->
     (Strategy.min_rows ic <= Z.of_nat (length df))%Z /\ bullish /\ in_band) /\
  (Backtest.buy_signal cfg prev_row last_row = true <-> bullish /\ in_band).
Proof.
  intros ic df bullish in_band.
  assert (Hband : fge (rsi last_row) 30 && fle (rsi last_row) 50 = true <-> in_band).
  { rewrite andb_true_iff, fge_spec, fle_spec. reflexivity. }
  assert (Hbuy : Backtest.buy_signal cfg prev_row last_row = true <->
                 bullish /\ in_band).
  { unfold Backtest.buy_signal.
    rewrite andb_true_iff, bullish_spec, Hband. reflexivity. }
  split; [|split].
  - subst df. rewrite get_combined_signal_eq. cbn zeta. fold ic.
    destruct (bullish_crossover ic prev_row last_row) eqn:Hbull; cbn [andb].
    + assert (Hb : bullish) by (apply bullish_spec; exact Hbull).
      destruct (_ || _) eqn:E.
      * split; [intros _|reflexivity]. split; [exact Hb|].
        apply orb_true_iff in E as [E|E].
        -- left. apply flt_spec. exact E.
        -- right. apply Hband. exact E.
      * pose proof (crossovers_exclusive _ _ _ Hbull) as Hbear. rewrite Hbear.
        cbn [andb]. split; [discriminate|]. intros [_ H]. exfalso.
        apply orb_false_iff in E as [E1 E2].
        destruct H as [H|H].
        -- apply flt_spec in H. congruence.
        -- apply Hband in H. congruence.
    + assert (Hnb : ~ bullish).
      { intros Hb. apply bullish_spec in Hb. fold ic in Hb. congruence. }
      destruct (bearish_crossover ic prev_row last_row && _);
        split; try discriminate; intros [Hb _]; tauto.
  - subst df. unfold Strategy.should_buy. fold ic.
    destruct (Z.ltb_spec (Z.of_nat (length (rows ++ [prev_row; last_row])))
                (Strategy.min_rows ic)) as [Hlt|Hge].
    + split; [discriminate|]. intros [H _]. lia.
    + rewrite iloc_last, iloc_prev. cbn [mbind outcome_bind].
      change (bullish_crossover ic prev_row last_row &&
              (fge (rsi last_row) 30 && fle (rsi last_row) 50))
        with (Backtest.buy_signal cfg prev_row last_row).
      split.
      * intros H. split; [exact Hge|]. apply Hbuy. congruence.
      * intros [_ H]. apply Hbuy in H. rewrite H. reflexivity.
  - exact Hbuy.
Qed.

(** ** The risk manager *)

(** No operation changes the percentages fixed by [__init__]. *)
Lemma exec_percentages rm c :
  Risk.rm_stop_loss_percentage (Risk.exec rm c) = Risk.rm_stop_loss_percentage rm /\
  Risk.rm_take_profit_percentage (Risk.exec rm c) = Risk.rm_take_profit_percentage rm.
Proof.
  destruct c as [sym amt entry|sym price|sym|sym|sym price|sym price]; cbn.
  - split; reflexivity.
  - unfold Risk.update_position.
    destruct (Risk.positions rm !! sym) as [p|]; [|split; reflexivity].
    destruct (feq (Risk.entry_price p) 0); split; reflexivity.
  - unfold Risk.remove_position.
    destruct (Risk.positions rm !! sym); split; reflexivity.
  - split; reflexivity.
  - unfold Risk.check_stop_loss.
    destruct (Risk.positions rm !! sym) as [p|]; [|split; reflexivity].
    destruct (fle price (Risk.stop_loss p)); split; reflexivity.
  - unfold Risk.check_take_profit.
    destruct (Risk.positions rm !! sym) as [p|]; [|split; reflexivity].
    destruct (fge price (Risk.take_profit p)); split; reflexivity.
Qed.

(** The thresholds computed at creation lie on either side of a positive
    entry price.  The argument is the one that survives rounding: the
    factor [1 - s] is at most 1 and the factor [1 + t] at least 1, and
    multiplying by a positive price keeps the order. *)
Lemma thresholds_within rm sym entry :
  0 < Risk.rm_stop_loss_percentage rm ->
  0 < Risk.rm_take_profit_percentage rm ->
  0 < entry ->
  Risk.calculate_stop_loss rm sym entry <= entry /\
  entry <= Risk.calculate_take_profit rm sym entry.
Proof.
  unfold Risk.calculate_stop_loss, Risk.calculate_take_profit.
  intros Hs Ht He.
  set (s := Risk.rm_stop_loss_percentage rm / 100).
  set (t := Risk.rm_take_profit_percentage rm / 100).
  assert (Hs' : 0 <= s) by (apply Qle_shift_div_l; lra).
  assert (Ht' : 0 <= t) by (apply Qle_shift_div_l; lra).
  assert (H1 : entry * (1 - s) <= entry * 1).
  { rewrite !(Qmult_comm entry). apply Qmult_le_compat_r; lra. }
  assert (H2 : entry * 1 <= entry * (1 + t)).
  { rewrite !(Qmult_comm entry). apply Qmult_le_compat_r; lra. }
  rewrite Qmult_1_r in H1, H2. split; assumption.
Qed.

(** One call keeps the thresholds of every held position where they
    are. *)
Lemma exec_guarded rm c :
  0 < Risk.rm_stop_loss_percentage rm ->
  0 < Risk.rm_take_profit_percentage rm ->
  map_Forall (fun _ p => Risk.guarded p) (Risk.positions rm) ->
  map_Forall (fun _ p => Risk.guarded p) (Risk.positions (Risk.exec rm c)).
Proof.
  intros Hs Ht Hinv.
  destruct c as [sym amt entry|sym price|sym|sym|sym price|sym price]; cbn.
  - apply map_Forall_insert_2; [|exact Hinv].
    intros Hc. exact (thresholds_within rm sym entry Hs Ht Hc).
  - unfold Risk.update_position.
    destruct (Risk.positions rm !! sym) as [p|] eqn:Hp; [|exact Hinv].
    pose proof (map_Forall_lookup_1 _ _ _ _ Hinv Hp) as Hb.
    destruct (feq (Risk.entry_price p) 0); cbn;
      (apply map_Forall_insert_2; [exact Hb|exact Hinv]).
  - unfold Risk.remove_position.
    destruct (Risk.positions rm !! sym) as [p|]; [|exact Hinv].
    cbn. apply map_Forall_delete. exact Hinv.
  - exact Hinv.
  - unfold Risk.check_stop_loss.
    destruct (Risk.positions rm !! sym) as [p|]; [|exact Hinv].
    destruct (fle price (Risk.stop_loss p)); exact Hinv.
  - unfold Risk.check_take_profit.
    destruct (Risk.positions rm !! sym) as [p|]; [|exact Hinv].
    destruct (fge price (Risk.take_profit p)); exact Hinv.
Qed.

(** C7, as stated, fails for the doubles the program computes with: the
    strict bracket [stop_loss < entry_price < take_profit] collapses when a
    threshold rounds to the entry price.  With both percentages at about
    1e-15 a position entered at 100 gets stop loss and take profit equal to
    100; with the default percentages 5 and 10 a position entered at the
    smallest positive double gets both thresholds equal to it.  All
    percentages and prices are positive, and the non-strict bracket holds
    in both cases. *)
Lemma bracket_collapses_in_doubles :
  Double.positive Double.tiny_percentage = true /\
  Double.positive (Double.entry_price Double.tiny_margin) = true /\
  Double.bracketed Double.tiny_margin = false /\
  Double.within_thresholds Double.tiny_margin = true /\
  Double.positive (Double.entry_price Double.tiny_entry) = true /\
  Double.bracketed Double.tiny_entry = false /\
  Double.within_thresholds Double.tiny_entry = true.
Proof. vm_compute. repeat split. Qed.

(** C7 (amended).  With positive stop-loss and take-profit percentages,
    every position with a positive entry price satisfies
    [stop_loss <= entry_price <= take_profit]: [add_position] creates it
    so, whatever the other positions are, and every call
    ([add_position], [update_position], [remove_position],
    [get_position], [check_stop_loss], [check_take_profit]) keeps it so for
    every position held. *)
Theorem positions_stay_bracketed (rm : Risk.RiskManager) :
  0 < Risk.rm_stop_loss_percentage rm ->
  0 < Risk.rm_take_profit_percentage rm ->
  (forall (sym : string) (amt entry : Q), 0 < entry ->
     exists p : Risk.Position,
       snd (Risk.add_position rm sym amt entry) = Ok p /\
       Risk.positions (fst (Risk.add_position rm sym amt entry)) !! sym = Some p /\
       Risk.entry_price p = entry /\
       Risk.within_thresholds p) /\
  (map_Forall (fun _ p => Risk.guarded p) (Risk.positions rm) ->
   forall cs : list Risk.call,
     map_Forall (fun _ p => Risk.guarded p) (Risk.positions (Risk.exec_all rm cs))).
Proof.
  intros Hs Ht. split.
  - intros sym amt entry He. eexists. split; [reflexivity|].
    split; [apply lookup_insert_eq|]. split; [reflexivity|].
    exact (thresholds_within rm sym entry Hs Ht He).
  - intros Hinv cs. revert rm Hs Ht Hinv.
    induction cs as [|c cs IH]; intros rm Hs Ht Hinv.
    + exact Hinv.
    + cbn. destruct (exec_percentages rm c) as [Es Et].
      apply IH.
      * rewrite Es. exact Hs.
      * rewrite Et. exact Ht.
      * apply exec_guarded; assumption.
Qed.

Lemma positions_stay_bracketed_witness :
  map_Forall (fun _ p => Risk.guarded p)
    (Risk.positions
       (Risk.exec_all (Risk.init default_config)
          [Risk.AddPosition "BTC/USDT" 1 100;
           Risk.UpdatePosition "BTC/USDT" 104;
           Risk.CheckStopLoss "BTC/USDT" 94;
           Risk.AddPosition "ETH/USDT" 2 50;
           Risk.AddPosition "XRP/USDT" 3 0;
           Risk.RemovePosition "BTC/USDT"])).
Proof.
  apply (positions_stay_bracketed (Risk.init default_config)).
  - reflexivity.
  - reflexivity.
  - apply map_Forall_empty.
Defined.

(** C4, as stated, fails: a second [add_position] for a symbol that already
    has a position does not raise; it replaces the stored position. *)
Lemma add_position_replaces :
  let rm := fst (Risk.add_position (Risk.init default_config) "BTC/USDT" 1 100) in
  let second := Risk.add_position rm "BTC/USDT" 2 200 in
  is_Some (Risk.positions rm !! "BTC/USDT") /\
  ~ ((exists e, snd second = Raise e) /\
     Risk.positions (fst second) !! "BTC/USDT" = Risk.positions rm !! "BTC/USDT").
Proof.
  cbn zeta. split.
  - eexists. vm_compute. reflexivity.
  - intros [[e He] _]. cbn in He. discriminate He.
Qed.

(** C4 (amended).  [add_position] never fails.  Whether or not the symbol
    already has a position, it stores, under that symbol, a new position
    with [stop_loss = entry_price * (1 - stop_loss_pct / 100)] and
    [take_profit = entry_price * (1 + take_profit_pct / 100)], the given
    amount and entry price, a current price equal to the entry price and a
    zero profit; it returns that position and leaves the positions of the
    other symbols as they were. *)
Theorem add_position_stores (rm : Risk.RiskManager) (sym : string) (amt entry : Q) :
  exists p : Risk.Position,
    snd (Risk.add_position rm sym amt entry) = Ok p /\
    Risk.positions (fst (Risk.add_position rm sym amt entry)) !! sym = Some p /\
    Risk.symbol p = sym /\
    Risk.amount p = amt /\
    Risk.entry_price p = entry /\
    Risk.stop_loss p = entry * (1 - Risk.rm_stop_loss_percentage rm / 100) /\
    Risk.take_profit p = entry * (1 + Risk.rm_take_profit_percentage rm / 100) /\
    Risk.current_price p = entry /\
    Risk.profit_loss p = 0 /\
    Risk.profit_loss_percentage p = 0 /\
    (forall other : string, other <> sym ->
       Risk.positions (fst (Risk.add_position rm sym amt entry)) !! other =
       Risk.positions rm !! other).
Proof.
  eexists. split; [reflexivity|]. cbn.
  split; [apply lookup_insert_eq|].
  repeat (split; [reflexivity|]).
  intros other Hne. apply lookup_insert_ne. congruence.
Qed.

(** C10.  For a symbol without a position, [check_stop_loss] and
    [check_take_profit] return false at every price and raise nothing,
    whereas [update_position] and [remove_position] raise the "not found"
    [ValueError]; none of the four changes the manager. *)
Theorem checks_without_position (rm : Risk.RiskManager) (sym : string) (price : Q) :
  Risk.positions rm !! sym = None ->
  Risk.check_stop_loss rm sym price = (rm, Ok false) /\
  Risk.check_take_profit rm sym price = (rm, Ok false) /\
  Risk.update_position rm sym price = (rm, Raise (Risk.not_found sym)) /\
  Risk.remove_position rm sym = (rm, Raise (Risk.not_found sym)).
Proof.
  intros Hnone.
  unfold Risk.check_stop_loss, Risk.check_take_profit,
    Risk.update_position, Risk.remove_position.
  rewrite Hnone. repeat split.
Qed.

Lemma checks_without_position_witness :
  let rm := fst (Risk.add_position (Risk.init default_config) "BTC/USDT" 1 100) in
  Risk.check_stop_loss rm "ETH/USDT" 1 = (rm, Ok false) /\
  Risk.check_take_profit rm "ETH/USDT" 1 = (rm, Ok false) /\
  Risk.update_position rm "ETH/USDT" 1 = (rm, Raise (Risk.not_found "ETH/USDT")) /\
  Risk.remove_position rm "ETH/USDT" = (rm, Raise (Risk.not_found "ETH/USDT")).
Proof.
  cbn zeta. apply checks_without_position. vm_compute. reflexivity.
Defined.

(** ** The backtest replay *)

(** The three things an iteration can do. *)
Lemma step_cases cfg sym prev_row row st :
  (Backtest.step cfg sym prev_row row st = st) \/
  (Backtest.position st = None /\
   Backtest.buy_signal cfg prev_row row = true /\
   Backtest.step cfg sym prev_row row st = Backtest.open_position sym row st) \/
  (exists p, Backtest.position st = Some p /\
     Backtest.step cfg sym prev_row row st = Backtest.close_position sym row p st).
Proof.
  unfold Backtest.step.
  destruct (Backtest.position st) as [p|] eqn:Hp.
  - destruct (Backtest.sell_signal cfg prev_row row);
      [right; right; eauto|].
    destruct (Backtest.stop_loss_hit cfg p row);
      [right; right; eauto|].
    destruct (Backtest.take_profit_hit cfg p row);
      [right; right; eauto|].
    left. reflexivity.
  - destruct (Backtest.buy_signal cfg prev_row row) eqn:Hb.
    + right. left. auto.
    + left. reflexivity.
Qed.

(** A property of the state that every iteration on a row of [df] keeps
    holds after the loop. *)
Lemma run_invariant (P : Backtest.State -> Prop) cfg sym (df : list Row) :
  (forall prev_row row st, row ∈ df -> P st -> P (Backtest.step cfg sym prev_row row st)) ->
  forall rows prev_row st,
    rows ⊆ df -> P st -> P (Backtest.run cfg sym prev_row rows st).
Proof.
  intros Hstep rows. induction rows as [|row rest IH]; intros prev_row st Hsub HP.
  - exact HP.
  - cbn. apply IH.
    + intros x Hx. apply Hsub. right. exact Hx.
    + apply Hstep; [|exact HP]. apply Hsub. left.
Qed.

Lemma loop_invariant (P : Backtest.State -> Prop) cfg sym (df : list Row) st :
  (forall prev_row row st, row ∈ df -> P st -> P (Backtest.step cfg sym prev_row row st)) ->
  P st -> P (Backtest.loop cfg sym df st).
Proof.
  intros Hstep HP. destruct df as [|first_row rest]; [exact HP|].
  cbn. apply (run_invariant P cfg sym (first_row :: rest)); [exact Hstep| |exact HP].
  intros x Hx. right. exact Hx.
Qed.

(** The loop visits the rows in order: the state after a frame that ends
    with [prev_row], [row] is the iteration on these two rows applied to
    the state after the frame that ends with [prev_row]. *)
Lemma run_snoc cfg sym first_row rows prev_row row st :
  Backtest.run cfg sym first_row (rows ++ [prev_row; row]) st =
  Backtest.step cfg sym prev_row row
    (Backtest.run cfg sym first_row (rows ++ [prev_row]) st).
Proof.
  revert first_row st. induction rows as [|r rows IH]; intros first_row st.
  - reflexivity.
  - cbn. apply IH.
Qed.

Lemma run_app cfg sym first_row rows prev_row row rest st :
  Backtest.run cfg sym first_row (rows ++ prev_row :: row :: rest) st =
  Backtest.run cfg sym row rest
    (Backtest.run cfg sym first_row (rows ++ [prev_row; row]) st).
Proof.
  revert first_row st. induction rows as [|r rows IH]; intros first_row st.
  - reflexivity.
  - cbn. apply IH.
Qed.

Lemma loop_snoc cfg sym rows prev_row row st :
  Backtest.loop cfg sym (rows ++ [prev_row; row]) st =
  Backtest.step cfg sym prev_row row (Backtest.loop cfg sym (rows ++ [prev_row]) st).
Proof.
  destruct rows as [|r rows]; [reflexivity|]. cbn. apply run_snoc.
Qed.

Lemma loop_app cfg sym rows prev_row row rest st :
  Backtest.loop cfg sym (rows ++ prev_row :: row :: rest) st =
  Backtest.run cfg sym row rest (Backtest.loop cfg sym (rows ++ [prev_row; row]) st).
Proof.
  destruct rows as [|r rows]; [reflexivity|]. cbn. apply run_app.
Qed.

(** The ledger only grows. *)
Lemma step_extends cfg sym prev_row row st :
  Backtest.trades st `prefix_of` Backtest.trades (Backtest.step cfg sym prev_row row st).
Proof.
  destruct (step_cases cfg sym prev_row row st) as [E|[(_ & _ & E)|(p & _ & E)]];
    rewrite E; [reflexivity| |]; cbn; apply prefix_app_r; reflexivity.
Qed.

Lemma run_extends cfg sym prev_row rows st :
  Backtest.trades st `prefix_of` Backtest.trades (Backtest.run cfg sym prev_row rows st).
Proof.
  revert prev_row st. induction rows as [|row rest IH]; intros prev_row st.
  - reflexivity.
  - cbn. etransitivity; [apply step_extends|apply IH].
Qed.

(** The ledger returned by [backtest] extends the ledger of its loop. *)
Lemma backtest_extends self sym start_d end_d tf initial df r :
  Backtest.backtest self sym start_d end_d tf initial df = Ok r ->
  Backtest.trades (Backtest.loop (Backtest.config self) sym df (Backtest.start initial))
    `prefix_of` Backtest.res_trades r.
Proof.
  unfold Backtest.backtest.
  change {| Backtest.balance := initial; Backtest.position := None; Backtest.trades := [] |}
    with (Backtest.start initial).
  set (st := Backtest.loop _ _ _ _).
  unfold Backtest.liquidate.
  destruct (Backtest.position st) as [p|].
  - destruct (iloc df (-1)) as [last_row|e]; cbn [mbind outcome_bind]; [|discriminate].
    destruct (feq initial 0).
    + destruct (Backtest.trades (Backtest.close_position sym last_row p st)) eqn:E;
        cbn [mbind outcome_bind]; [discriminate|].
      intros [= <-]. cbn [Backtest.res_trades]. rewrite <- E.
      cbn. apply prefix_app_r. reflexivity.
    + cbn [mbind outcome_bind]. intros [= <-]. cbn. apply prefix_app_r. reflexivity.
  - cbn [mbind outcome_bind].
    destruct (feq initial 0).
    + destruct (Backtest.trades st) eqn:E; cbn [mbind outcome_bind]; [discriminate|].
      intros [= <-]. cbn [Backtest.res_trades]. reflexivity.
    + cbn [mbind outcome_bind]. intros [= <-]. reflexivity.
Qed.

(** C8.  Let the loop of [backtest] reach the bar [row], which follows
    [prev_row], without a position ([before] holds the local variables at
    that point), and let the bar carry the buy signal (and a positive
    close, as every bar has).  Then the iteration on that bar opens a
    position of [balance * 0.95 / close] units at the close price, debits
    the balance by [amount * close], and appends a buy trade with that
    amount and price, stamped with the bar's timestamp; the loop goes on
    from that state over the remaining bars, and the trade stands at the
    same place in the ledger that [backtest] returns. *)
Theorem buy_step (self : Backtest.TradingBot) (sym start_d end_d tf : string)
    (initial : Q) (rows rest : list Row) (prev_row row : Row) :
  let cfg := Backtest.config self in
  let df := rows ++ prev_row :: row :: rest in
  let before := Backtest.loop cfg sym (rows ++ [prev_row]) (Backtest.start initial) in
  let after := Backtest.loop cfg sym (rows ++ [prev_row; row]) (Backtest.start initial) in
  Backtest.position before = None ->
  Backtest.buy_signal cfg prev_row row = true ->
  0 < close row ->
  exists (p : Backtest.Position) (t : Backtest.Trade),
    Backtest.loop cfg sym df (Backtest.start initial) = Backtest.run cfg sym row rest after /\
    Backtest.position after = Some p /\
    Backtest.pos_amount p = Backtest.balance before * 0.95 / close row /\
    Backtest.entry_price p = close row /\
    Backtest.pos_symbol p = sym /\
    Backtest.balance after = Backtest.balance before - Backtest.pos_amount p * close row /\
    Backtest.trades after = Backtest.trades before ++ [t] /\
    Backtest.type t = Backtest.buy /\
    Backtest.amount t = Backtest.pos_amount p /\
    Backtest.price t = close row /\
    Backtest.symbol t = sym /\
    Backtest.timestamp t = name row /\
    Backtest.id t = pretty (length (Backtest.trades before) + 1)%nat /\
    (forall r : Backtest.Result,
       Backtest.backtest self sym start_d end_d tf initial df = Ok r ->
       Backtest.res_trades r !! length (Backtest.trades before) = Some t).
Proof.
  intros cfg df before after Hflat Hbuy Hpos.
  assert (Hafter : after = Backtest.open_position sym row before).
  { unfold after. rewrite loop_snoc. fold before.
    unfold Backtest.step. rewrite Hflat, Hbuy. reflexivity. }
  assert (Hloop : Backtest.loop cfg sym df (Backtest.start initial) =
                  Backtest.run cfg sym row rest after).
  { unfold df, after. apply loop_app. }
  eexists. eexists.
  split; [exact Hloop|].
  rewrite Hafter. cbn [Backtest.open_position Backtest.position Backtest.balance
    Backtest.trades Backtest.pos_amount Backtest.entry_price Backtest.pos_symbol].
  do 6 (split; [reflexivity|]).
  cbn [Backtest.new_trade Backtest.type Backtest.amount Backtest.price Backtest.symbol
       Backtest.timestamp Backtest.id].
  do 6 (split; [reflexivity|]).
  intros r Hr.
  apply backtest_extends in Hr. fold cfg in Hr. rewrite Hloop, Hafter in Hr.
  eapply prefix_lookup_Some; [|etransitivity; [apply run_extends|exact Hr]].
  cbn [Backtest.open_position Backtest.trades].
  rewrite lookup_app_r by reflexivity.
  rewrite Nat.sub_diag. reflexivity.
Qed.

Lemma buy_step_witness :
  exists (p : Backtest.Position) (t : Backtest.Trade),
    Backtest.position
      (Backtest.loop default_config "BTC/USDT" [bar0; bar1] (Backtest.start 100)) = Some p /\
    Backtest.pos_amount p = 100 * 0.95 / 100 /\
    Backtest.price t = 100 /\
    (forall r : Backtest.Result,
       Backtest.backtest sample_bot "BTC/USDT" "2024-01-01" "2024-01-02" "15m" 100
         [bar0; bar1; bar2; bar3] = Ok r ->
       Backtest.res_trades r !! 0%nat = Some t).
Proof.
  destruct (buy_step sample_bot "BTC/USDT" "2024-01-01" "2024-01-02" "15m" 100
              [] [bar2; bar3] bar0 bar1)
    as (p & t & _ & Hp & Ha & _ & _ & _ & _ & _ & _ & Hpr & _ & _ & _ & Hr).
  - reflexivity.
  - vm_compute. reflexivity.
  - reflexivity.
  - exists p, t. split; [exact Hp|]. split; [exact Ha|]. split; [exact Hpr|exact Hr].
Defined.

(** *** The ledger is made of rounds *)

Lemma pairs_ind {A : Type} (P : list A -> Prop) :
  P [] -> (forall a, P [a]) -> (forall a b l, P l -> P (a :: b :: l)) ->
  forall l, P l.
Proof.
  intros Hnil Hone Hstep.
  assert (H : forall l, P l /\ forall a, P (a :: l)).
  { induction l as [|b l [IH1 IH2]].
    - split; [exact Hnil|exact Hone].
    - split; [apply IH2|]. intros a. apply Hstep. exact IH1. }
  intros l. apply H.
Qed.

Lemma rounds_app ts ts' :
  Backtest.rounds ts = true -> Backtest.rounds (ts ++ ts') = Backtest.rounds ts'.
Proof.
  induction ts as [|a|a b l IH] using pairs_ind; intros H.
  - reflexivity.
  - discriminate H.
  - cbn in H |- *.
    destruct (Backtest.type a); [|discriminate H].
    destruct (Backtest.type b); [discriminate H|].
    apply andb_true_iff in H as [H1 H2]. rewrite H1. cbn [andb].
    apply IH. exact H2.
Qed.

Lemma rounds_last ts t :
  Backtest.rounds ts = true -> last ts = Some t -> Backtest.type t = Backtest.sell.
Proof.
  induction ts as [|a|a b l IH] using pairs_ind; intros H Hl.
  - discriminate Hl.
  - discriminate H.
  - cbn in H.
    destruct (Backtest.type a); [|discriminate H].
    destruct (Backtest.type b) eqn:Hb; [discriminate H|].
    apply andb_true_iff in H as [_ H2].
    destruct l as [|c l'].
    + cbn in Hl. congruence.
    + apply IH; [exact H2|]. exact Hl.
Qed.

Lemma close_position_rounds sym row p st :
  Backtest.position st = Some p -> Backtest.settled st ->
  Backtest.rounds (Backtest.trades (Backtest.close_position sym row p st)) = true.
Proof.
  unfold Backtest.settled. intros Hp Hs. rewrite Hp in Hs.
  destruct Hs as (ts & b & Hts & Hr & Hb & Ha).
  cbn. rewrite Hts, <- app_assoc. cbn [app].
  rewrite (rounds_app _ _ Hr). cbn. rewrite Hb, Ha.
  rewrite andb_true_r. apply Qeq_bool_iff. reflexivity.
Qed.

Lemma step_settled cfg sym prev_row row st :
  Backtest.settled st -> Backtest.settled (Backtest.step cfg sym prev_row row st).
Proof.
  intros Hs.
  destruct (step_cases cfg sym prev_row row st) as [E|[(Hp & _ & E)|(p & Hp & E)]];
    rewrite E.
  - exact Hs.
  - unfold Backtest.settled in *. rewrite Hp in Hs. cbn.
    eexists. eexists. split; [reflexivity|]. split; [exact Hs|].
    split; reflexivity.
  - unfold Backtest.settled at 1. cbn [Backtest.position Backtest.close_position].
    apply close_position_rounds; assumption.
Qed.

(** After the loop the position can only be open if the frame has a last
    row. *)
Lemma loop_open_has_last cfg sym df st p :
  Backtest.position st = None ->
  Backtest.position (Backtest.loop cfg sym df st) = Some p ->
  exists rows last_row, df = rows ++ [last_row].
Proof.
  intros Hflat Hopen.
  destruct df as [|r df] using rev_ind.
  - cbn in Hopen. congruence.
  - eauto.
Qed.

Lemma loop_settled cfg sym df st :
  Backtest.settled st -> Backtest.settled (Backtest.loop cfg sym df st).
Proof.
  intros Hs. apply (loop_invariant Backtest.settled); [|exact Hs].
  intros prev_row row st' _. apply step_settled.
Qed.

(** The frame of the sample bars: bought on the second bar, sold on the
    third (RSI 75) at 105, nothing left to close on the fourth, whose close
    is 110. *)
Lemma final_trade_before_last_bar :
  exists (r : Backtest.Result) (b t : Backtest.Trade),
    Backtest.backtest sample_bot "BTC/USDT" "2024-01-01" "2024-01-02" "15m" 100
      [bar0; bar1; bar2; bar3] = Ok r /\
    b ∈ Backtest.res_trades r /\ Backtest.type b = Backtest.buy /\
    last (Backtest.res_trades r) = Some t /\
    ~ Backtest.price t == close bar3.
Proof.
  eexists. eexists. eexists.
  split; [vm_compute; reflexivity|].
  split; [apply list_elem_of_here|].
  split; [reflexivity|].
  split; [reflexivity|].
  cbn. intros H. vm_compute in H. discriminate H.
Qed.

(** C3 (amended).  For every frame and every non-zero initial balance the
    backtest returns a Result whose ledger consists of completed rounds (a
    buy, then the sell of the same amount), so that no position is left
    open and the final trade, if there is one, is a sell.  If a position is
    still open after the last iteration, the ledger of the loop is extended
    by exactly one sell of the position's amount at the last row's close
    price, stamped with the last row's timestamp, and the proceeds are
    credited to the final balance; otherwise the ledger and balance of the
    loop are returned as they are. *)
Theorem backtest_ends_flat (self : Backtest.TradingBot) (sym start_d end_d tf : string)
    (initial : Q) (df : list Row) :
  ~ initial == 0 ->
  let st := Backtest.loop (Backtest.config self) sym df
              {| Backtest.balance := initial;
                 Backtest.position := None;
                 Backtest.trades := [] |} in
  exists r : Backtest.Result,
    Backtest.backtest self sym start_d end_d tf initial df = Ok r /\
    Backtest.rounds (Backtest.res_trades r) = true /\
    (forall t, last (Backtest.res_trades r) = Some t -> Backtest.type t = Backtest.sell) /\
    match Backtest.position st with
    | None =>
        Backtest.res_trades r = Backtest.trades st /\
        Backtest.final_balance r = Backtest.balance st
    | Some p =>
        exists (last_row : Row) (t : Backtest.Trade),
          last df = Some last_row /\
          Backtest.res_trades r = Backtest.trades st ++ [t] /\
          Backtest.type t = Backtest.sell /\
          Backtest.price t = close last_row /\
          Backtest.amount t = Backtest.pos_amount p /\
          Backtest.timestamp t = name last_row /\
          Backtest.final_balance r =
            Backtest.balance st + Backtest.pos_amount p * close last_row
    end.
Proof.
  intros Hne st.
  assert (Hfeq : feq initial 0 = false).
  { destruct (feq initial 0) eqn:E; [|reflexivity].
    apply feq_spec in E. contradiction. }
  assert (Hs : Backtest.settled st).
  { apply loop_settled. reflexivity. }
  unfold Backtest.backtest. fold st. rewrite Hfeq.
  unfold Backtest.liquidate.
  destruct (Backtest.position st) as [p|] eqn:Hp.
  - assert (Hdf : exists rows last_row, df = rows ++ [last_row]).
    { unfold st in Hp. eapply loop_open_has_last; [|exact Hp]. reflexivity. }
    destruct Hdf as (rows & last_row & Hdf). rewrite Hdf.
    rewrite iloc_final. cbn [mbind outcome_bind].
    eexists. split; [reflexivity|].
    cbn [Backtest.res_trades Backtest.final_balance].
    assert (Hr : Backtest.rounds
                   (Backtest.trades (Backtest.close_position sym last_row p st)) = true).
    { apply close_position_rounds; assumption. }
    split; [exact Hr|].
    split; [intros t; apply rounds_last; exact Hr|].
    exists last_row. eexists.
    split; [apply last_snoc|].
    split; [reflexivity|].
    repeat (split; [reflexivity|]). reflexivity.
  - cbn [mbind outcome_bind].
    eexists. split; [reflexivity|].
    cbn [Backtest.res_trades Backtest.final_balance].
    unfold Backtest.settled in Hs. rewrite Hp in Hs.
    split; [exact Hs|].
    split; [intros t; apply rounds_last; exact Hs|].
    split; reflexivity.
Qed.

Lemma backtest_ends_flat_witness :
  exists r : Backtest.Result,
    Backtest.backtest sample_bot "BTC/USDT" "2024-01-01" "2024-01-02" "15m" 100
      [bar0; bar1] = Ok r /\
    Backtest.rounds (Backtest.res_trades r) = true /\
    (forall t, last (Backtest.res_trades r) = Some t -> Backtest.type t = Backtest.sell).
Proof.
  destruct (backtest_ends_flat sample_bot "BTC/USDT" "2024-01-01" "2024-01-02" "15m"
              100 [bar0; bar1]) as (r & Hr & Hrounds & Hlast & _).
  - vm_compute. discriminate.
  - exists r. repeat split; assumption.
Defined.

(** C5, as stated, fails: on a frame with a single complete bar the
    backtest raises nothing and returns a Result. *)
Lemma single_bar_backtest_returns :
  (length [bar0] < 2)%nat /\
  ~ exists e : exn,
      Backtest.backtest sample_bot "BTC/USDT" "2024-01-01" "2024-01-02" "15m" 100
        [bar0] = Raise e.
Proof.
  split; [cbn; lia|].
  intros [e He]. vm_compute in He. discriminate He.
Qed.

(** C5 (amended).  On a frame with fewer than two complete bars no
    iteration runs: for a non-zero initial balance the backtest returns a
    Result with an empty ledger, a final balance equal to the initial one
    and a zero profit, in amount and in percent. *)
Theorem short_frame_backtest (self : Backtest.TradingBot) (sym start_d end_d tf : string)
    (initial : Q) (df : list Row) :
  (length df < 2)%nat ->
  ~ initial == 0 ->
  exists (r : Backtest.Result) (pct : Q),
    Backtest.backtest self sym start_d end_d tf initial df = Ok r /\
    Backtest.res_trades r = [] /\
    Backtest.initial_balance r = initial /\
    Backtest.final_balance r = initial /\
    Backtest.profit_loss r == 0 /\
    Backtest.profit_loss_percentage r = Some pct /\
    pct == 0.
Proof.
  intros Hlen Hne.
  assert (Hfeq : feq initial 0 = false).
  { destruct (feq initial 0) eqn:E; [|reflexivity].
    apply feq_spec in E. contradiction. }
  assert (Hloop : Backtest.loop (Backtest.config self) sym df
                    {| Backtest.balance := initial;
                       Backtest.position := None;
                       Backtest.trades := [] |} =
                  {| Backtest.balance := initial;
                     Backtest.position := None;
                     Backtest.trades := [] |}).
  { destruct df as [|r0 [|r1 rest]]; [reflexivity|reflexivity|cbn in Hlen; lia]. }
  unfold Backtest.backtest. rewrite Hloop, Hfeq. cbn.
  eexists. eexists. split; [reflexivity|]. cbn.
  do 3 (split; [reflexivity|]).
  split; [ring|].
  split; [reflexivity|].
  field. exact Hne.
Qed.

Lemma short_frame_backtest_witness :
  exists (r : Backtest.Result) (pct : Q),
    Backtest.backtest sample_bot "BTC/USDT" "2024-01-01" "2024-01-02" "15m" 100
      [bar0] = Ok r /\
    Backtest.res_trades r = [] /\
    Backtest.initial_balance r = 100 /\
    Backtest.final_balance r = 100 /\
    Backtest.profit_loss r == 0 /\
    Backtest.profit_loss_percentage r = Some pct /\
    pct == 0.
Proof.
  apply short_frame_backtest.
  - cbn. lia.
  - vm_compute. discriminate.
Defined.

(** *** Ids and timestamps of the ledger *)

Lemma ledger_stamped_snoc df ts sym sd price amt row :
  row ∈ df ->
  Backtest.ledger_stamped df ts ->
  Backtest.ledger_stamped df (ts ++ [Backtest.new_trade ts sym sd price amt row]).
Proof.
  intros Hin Hts i t Hi.
  destruct (decide (i < length ts)%nat) as [Hlt|Hge].
  - rewrite lookup_app_l in Hi by exact Hlt. apply Hts. exact Hi.
  - rewrite lookup_app_r in Hi by lia.
    destruct (i - length ts)%nat as [|k] eqn:Hk; [|discriminate Hi].
    cbn in Hi. injection Hi as <-. cbn.
    assert (i = length ts) as -> by lia.
    split; [reflexivity|]. exists row. split; [exact Hin|reflexivity].
Qed.

Lemma step_stamped cfg sym df prev_row row st :
  row ∈ df ->
  Backtest.ledger_stamped df (Backtest.trades st) ->
  Backtest.ledger_stamped df (Backtest.trades (Backtest.step cfg sym prev_row row st)).
Proof.
  intros Hin Hts.
  destruct (step_cases cfg sym prev_row row st) as [E|[(_ & _ & E)|(p & _ & E)]];
    rewrite E.
  - exact Hts.
  - cbn. apply ledger_stamped_snoc; assumption.
  - cbn. apply ledger_stamped_snoc; assumption.
Qed.

(** X29.  The ledger of a backtest is numbered and dated from the frame
    alone: whenever [backtest] returns, the trade at place [i] of the
    ledger (counting from 0) has the id [str(i + 1)], and every trade
    carries the timestamp of a row of the frame. *)
Theorem backtest_ledger_numbered (self : Backtest.TradingBot)
    (sym start_d end_d tf : string) (initial : Q) (df : list Row) (r : Backtest.Result) :
  Backtest.backtest self sym start_d end_d tf initial df = Ok r ->
  Backtest.ledger_stamped df (Backtest.res_trades r).
Proof.
  intros Hr. unfold Backtest.backtest in Hr.
  set (st := Backtest.loop (Backtest.config self) sym df _) in Hr.
  assert (Hst : Backtest.ledger_stamped df (Backtest.trades st)).
  { apply (loop_invariant
             (fun s => Backtest.ledger_stamped df (Backtest.trades s))).
    - intros prev_row row s Hin. apply step_stamped. exact Hin.
    - intros i t Hi. discriminate Hi. }
  unfold Backtest.liquidate in Hr.
  destruct (Backtest.position st) as [p|] eqn:Hp.
  - assert (Hdf : exists rows last_row, df = rows ++ [last_row]).
    { unfold st in Hp. eapply loop_open_has_last; [|exact Hp]. reflexivity. }
    destruct Hdf as (rows & last_row & Hdf).
    rewrite Hdf in Hr at 1. rewrite iloc_final in Hr.
    cbn [mbind outcome_bind] in Hr.
    assert (Hts : Backtest.ledger_stamped df
                    (Backtest.trades (Backtest.close_position sym last_row p st))).
    { cbn. apply ledger_stamped_snoc; [|exact Hst].
      rewrite Hdf. apply elem_of_app. right. apply list_elem_of_here. }
    destruct (feq initial 0).
    + destruct (Backtest.trades (Backtest.close_position sym last_row p st)) eqn:E;
        cbn in Hr; [discriminate Hr|].
      injection Hr as <-. exact Hts.
    + cbn in Hr. injection Hr as <-. exact Hts.
  - cbn [mbind outcome_bind] in Hr.
    destruct (feq initial 0).
    + destruct (Backtest.trades st) eqn:E; cbn in Hr; [discriminate Hr|].
      injection Hr as <-. exact Hst.
    + cbn in Hr. injection Hr as <-. exact Hst.
Qed.

Lemma backtest_ledger_numbered_witness :
  exists r : Backtest.Result,
    Backtest.backtest sample_bot "BTC/USDT" "2024-01-01" "2024-01-02" "15m" 100
      [bar0; bar1; bar2; bar3] = Ok r /\
    Backtest.ledger_stamped [bar0; bar1; bar2; bar3] (Backtest.res_trades r).
Proof.
  destruct (Backtest.backtest sample_bot "BTC/USDT" "2024-01-01" "2024-01-02" "15m" 100
              [bar0; bar1; bar2; bar3]) as [r|e] eqn:E.
  - exists r. split; [reflexivity|].
    exact (backtest_ledger_numbered _ _ _ _ _ _ _ _ E).
  - exfalso. vm_compute in E. discriminate E.
Defined.

(** ** The indicator engine *)













(** * Further properties *)

(** ** Signals on short and long frames *)

Lemma two_last_rows (df : list Row) :
  (2 <= length df)%nat -> exists rows prev_row last_row, df = rows ++ [prev_row; last_row].
Proof.
  intros Hlen.
  destruct df as [|last_row df] using rev_ind; [cbn in Hlen; lia|].
  clear IHdf.
  destruct df as [|prev_row df] using rev_ind.
  - cbn in Hlen. lia.
  - exists df, prev_row, last_row. rewrite <- app_assoc. reflexivity.
Qed.

Lemma short_frame_cases (df : list Row) :
  (length df < 2)%nat -> df = [] \/ exists r, df = [r].
Proof.
  destruct df as [|r [|r' df]]; cbn; intros H; [left; reflexivity|right; eauto|lia].
Qed.

(** The value of the combined signal is one of 1, -1, 0. *)
Lemma combined_signal_values rows prev_row last_row cfg :
  exists s, Indicators.get_combined_signal (rows ++ [prev_row; last_row]) cfg = Ok s /\
    (s = Buy \/ s = Sell \/ s = Hold).
Proof.
  rewrite get_combined_signal_eq. cbn zeta.
  destruct (bullish_crossover _ _ _ && _); [eauto|].
  destruct (bearish_crossover _ _ _ && _); eauto 6.
Qed.


(** What the crossover signal reduces to on a frame that ends with the
    rows [prev_row] and [last_row]. *)
Lemma get_ma_crossover_signal_eq rows prev_row last_row cfg :
  Indicators.get_ma_crossover_signal (rows ++ [prev_row; last_row]) cfg =
  if bullish_crossover (indicators cfg) prev_row last_row then Ok 1%Z
  else if bearish_crossover (indicators cfg) prev_row last_row then Ok (-1)%Z
  else Ok 0%Z.
Proof.
  unfold Indicators.get_ma_crossover_signal.
  rewrite iloc_last, iloc_prev. reflexivity.
Qed.

(** X2.  The combined signal never contradicts the crossover signal: both
    raise on the same frames, and where they return, the combined signal
    is either 0 or equal to the crossover signal.  In particular, without a
    crossover the combined signal is 0 whatever the RSI. *)
Theorem combined_signal_follows_crossover (df : list Row) (cfg : Config) :
  match Indicators.get_combined_signal df cfg,
        Indicators.get_ma_crossover_signal df cfg with
  | Ok s, Ok m => s = 0%Z \/ s = m
  | Raise e, Raise e' => e = e'
  | _, _ => False
  end.
Proof.
  destruct (le_lt_dec 2 (length df)) as [Hlen|Hlen].
  - destruct (two_last_rows df Hlen) as (rows & prev_row & last_row & ->).
    rewrite get_combined_signal_eq, get_ma_crossover_signal_eq. cbn zeta.
    destruct (bullish_crossover (indicators cfg) prev_row last_row) eqn:Hbull.
    + rewrite (crossovers_exclusive _ _ _ Hbull). cbn [andb].
      destruct (_ || _); [right|left]; reflexivity.
    + cbn [andb].
      destruct (bearish_crossover (indicators cfg) prev_row last_row); cbn [andb].
      * destruct (_ || _); [right|left]; reflexivity.
      * left. reflexivity.
  - destruct (short_frame_cases df Hlen) as [->|[r ->]]; reflexivity.
Qed.

(** X3.  With a buy threshold between 30 and 50 and a sell threshold of at
    least 70 (the defaults are 50 and 70) the configured thresholds do not
    show in the combined signal: it is Buy iff there is a bullish crossover
    and the RSI is at most 50, and Sell iff there is a bearish crossover
    and the RSI is at least 70. *)
Theorem combined_signal_usual_thresholds (cfg : Config) (rows : list Row)
    (prev_row last_row : Row) :
  30 <= rsi_buy_threshold (indicators cfg) ->
  rsi_buy_threshold (indicators cfg) <= 50 ->
  70 <= rsi_sell_threshold (indicators cfg) ->
  let ic := indicators cfg in
  let df := rows ++ [prev_row; last_row] in
  (Indicators.get_combined_signal df cfg = Ok Buy <->
     bullish_crossover ic prev_row last_row = true /\ rsi last_row <= 50) /\
  (Indicators.get_combined_signal df cfg = Ok Sell <->
     bearish_crossover ic prev_row last_row = true /\ 70 <= rsi last_row).
Proof.
  intros Hb1 Hb2 Hs ic df. subst df. rewrite get_combined_signal_eq. cbn zeta. fold ic.
  set (r := rsi last_row).
  assert (Hbuy : flt r (rsi_buy_threshold ic) || (fge r 30 && fle r 50) = true
                 <-> r <= 50).
  { rewrite orb_true_iff, andb_true_iff, flt_spec, fge_spec, fle_spec.
    split.
    - intros [H|[_ H]]; [|exact H]. apply Qlt_le_weak.
      eapply Qlt_le_trans; [exact H|exact Hb2].
    - intros H. destruct (Qlt_le_dec r 30) as [Hlt|Hge].
      + left. eapply Qlt_le_trans; [exact Hlt|exact Hb1].
      + right. split; assumption. }
  assert (Hsell : (negb (flt r (rsi_buy_threshold ic)) && fgt r (rsi_sell_threshold ic))
                  || fge r 70 = true <-> 70 <= r).
  { rewrite orb_true_iff, andb_true_iff, fgt_spec, fge_spec.
    split.
    - intros [[_ H]|H]; [|exact H]. apply Qlt_le_weak.
      eapply Qle_lt_trans; [exact Hs|exact H].
    - intros H. right. exact H. }
  destruct (bullish_crossover ic prev_row last_row) eqn:Hbull; cbn [andb].
  - rewrite (crossovers_exclusive _ _ _ Hbull). cbn [andb].
    destruct (flt r (rsi_buy_threshold ic) || (fge r 30 && fle r 50)) eqn:E;
      intuition (try discriminate; try reflexivity).
  - destruct (bearish_crossover ic prev_row last_row); cbn [andb];
      [|intuition (try discriminate; try reflexivity)].
    destruct (_ || fge r 70) eqn:E;
      intuition (try discriminate; try reflexivity).
Qed.

Lemma combined_signal_usual_thresholds_witness :
  (Indicators.get_combined_signal [bar0; bar1] default_config = Ok Buy <->
     bullish_crossover (indicators default_config) bar0 bar1 = true /\ rsi bar1 <= 50) /\
  (Indicators.get_combined_signal [bar0; bar1] default_config = Ok Sell <->
     bearish_crossover (indicators default_config) bar0 bar1 = true /\ 70 <= rsi bar1).
Proof.
  apply (combined_signal_usual_thresholds default_config [] bar0 bar1).
  - vm_compute. discriminate.
  - vm_compute. discriminate.
  - vm_compute. discriminate.
Defined.

(** ** The strategy *)


Lemma should_sell_eq cfg sym rows prev_row last_row :
  (Strategy.min_rows (indicators cfg) <= Z.of_nat (length (rows ++ [prev_row; last_row])))%Z ->
  Strategy.should_sell cfg sym (rows ++ [prev_row; last_row]) =
  Ok (Backtest.sell_signal cfg prev_row last_row).
Proof.
  intros Hlen. unfold Strategy.should_sell.
  destruct (Z.ltb_spec (Z.of_nat (length (rows ++ [prev_row; last_row])))
              (Strategy.min_rows (indicators cfg))); [lia|].
  rewrite iloc_last, iloc_prev. reflexivity.
Qed.



(** X5.  The yes/no tests and the combined signal agree in one direction
    each: when [should_buy] answers true the combined signal is Buy, and
    when the combined signal is Sell on a frame with enough rows
    [should_sell] answers true. *)
Theorem should_rules_vs_combined_signal (cfg : Config) (sym : string) (df : list Row) :
  (Strategy.should_buy cfg sym df = Ok true ->
     Indicators.get_combined_signal df cfg = Ok Buy) /\
  (Indicators.get_combined_signal df cfg = Ok Sell ->
     (Strategy.min_rows (indicators cfg) <= Z.of_nat (length df))%Z ->
     Strategy.should_sell cfg sym df = Ok true).
Proof.
  destruct (le_lt_dec 2 (length df)) as [Hlen|Hlen].
  - destruct (two_last_rows df Hlen) as (rows & prev_row & last_row & ->).
    rewrite get_combined_signal_eq. cbn zeta. split.
    + unfold Strategy.should_buy.
      destruct (_ <? _)%Z; [discriminate|].
      rewrite iloc_last, iloc_prev. cbn [mbind outcome_bind].
      intros [= H]. apply andb_true_iff in H as [Hbull Hband].
      rewrite Hbull, Hband, orb_true_r. reflexivity.
    + intros Hsell Hge. rewrite (should_sell_eq _ _ _ _ _ Hge).
      unfold Backtest.sell_signal.
      destruct (bullish_crossover (indicators cfg) prev_row last_row && _);
        [discriminate Hsell|].
      destruct (bearish_crossover (indicators cfg) prev_row last_row);
        [reflexivity|discriminate Hsell].
  - destruct (short_frame_cases df Hlen) as [->|[r ->]]; split;
      try (intros H; discriminate H);
      unfold Strategy.should_buy; destruct (_ <? _)%Z; intros H; discriminate H.
Qed.

(** A frame that passes the length test of [generate_signals] yields a
    signal or [IndexError]. *)
Lemma frame_signal_outcome cfg (df : list Row) :
  (exists s, (if (Z.of_nat (length df) <? Strategy.min_rows (indicators cfg))%Z
              then Ok 0%Z
              else Indicators.get_combined_signal df cfg) = Ok s /\
             Strategy.frame_signal cfg df s /\
             (s = Buy \/ s = Sell \/ s = Hold)) \/
  ((Strategy.min_rows (indicators cfg) <= Z.of_nat (length df) < 2)%Z /\
   (if (Z.of_nat (length df) <? Strategy.min_rows (indicators cfg))%Z
    then Ok 0%Z
    else Indicators.get_combined_signal df cfg) = Raise IndexError).
Proof.
  unfold Strategy.frame_signal.
  destruct (Z.ltb_spec (Z.of_nat (length df)) (Strategy.min_rows (indicators cfg)))
    as [Hlt|Hge].
  - left. exists 0%Z. split; [reflexivity|]. split; [reflexivity|].
    right. right. reflexivity.
  - destruct (le_lt_dec 2 (length df)) as [Hlen|Hlen].
    + left. destruct (two_last_rows df Hlen) as (rows & prev_row & last_row & ->).
      destruct (combined_signal_values rows prev_row last_row cfg) as (s & Hs & Hv).
      exists s. split; [exact Hs|]. split; [exact Hs|exact Hv].
    + right. split; [lia|].
      destruct (short_frame_cases df Hlen) as [->|[r ->]]; reflexivity.
Qed.



(** X7.  [generate_signals] has no partial result: if the frame of some
    symbol passes the length test with fewer than two rows (periods that
    are not positive), the whole call raises [IndexError] and no signal is
    returned for any symbol. *)
Theorem generate_signals_all_or_nothing (cfg : Config) (data : list (string * list Row))
    (sym : string) (df : list Row) :
  (sym, df) ∈ data ->
  (Strategy.min_rows (indicators cfg) <= Z.of_nat (length df) < 2)%Z ->
  Strategy.generate_signals cfg data = Raise IndexError.
Proof.
  intros Hin Hbad. induction data as [|[sym' df'] data IH].
  - apply elem_of_nil in Hin. contradiction.
  - cbn [Strategy.generate_signals].
    destruct (frame_signal_outcome cfg df') as [(s & Hs & _)|[_ Hraise]].
    + rewrite Hs. cbn [mbind outcome_bind].
      apply elem_of_cons in Hin as [Heq|Hin].
      * injection Heq as -> ->.
        exfalso. revert Hs.
        destruct (Z.ltb_spec (Z.of_nat (length df')) (Strategy.min_rows (indicators cfg)));
          [lia|].
        destruct (short_frame_cases df' ltac:(lia)) as [->|[r ->]]; discriminate.
      * rewrite (IH Hin). reflexivity.
    + rewrite Hraise. reflexivity.
Qed.

Lemma generate_signals_all_or_nothing_witness :
  Strategy.generate_signals no_periods
    [("BTC/USDT"%string, [bar0; bar1]); ("ETH/USDT"%string, [bar0])] = Raise IndexError.
Proof.
  apply (generate_signals_all_or_nothing no_periods _ "ETH/USDT"%string [bar0]).
  - apply list_elem_of_further, list_elem_of_here.
  - vm_compute. split; [discriminate|reflexivity].
Defined.

(** ** Position sizing *)

Lemma fmin_le_l x y : fmin x y <= x.
Proof.
  unfold fmin. destruct (flt y x) eqn:E.
  - apply flt_spec in E. apply Qlt_le_weak. exact E.
  - apply Qle_refl.
Qed.

Lemma fmin_le_r x y : fmin x y <= y.
Proof.
  unfold fmin. destruct (flt y x) eqn:E.
  - apply Qle_refl.
  - apply Qnot_lt_le. intros H. apply flt_spec in H. congruence.
Qed.

Lemma fmin_cases x y : fmin x y = x \/ fmin x y = y.
Proof. unfold fmin. destruct (flt y x); auto. Qed.

(** X8.  [calculate_position_size] divides the risk budget by the number
    of trading pairs first: without pairs it raises [ZeroDivisionError] at
    every price.  With at least one pair and a positive price it returns
    the smaller of [budget / price] and [max_position_size / price], where
    [budget] is [investment_amount * risk_percentage / 100 / number of
    pairs]: the amount bought never exceeds either. *)
Theorem position_size_capped (rm : Risk.RiskManager) (sym : string) (price : Q) :
  let budget := Risk.rm_investment_amount rm * Risk.rm_risk_percentage rm / 100
                / inject_Z (Z.of_nat (length (pairs (trading (Risk.config rm))))) in
  (pairs (trading (Risk.config rm)) = [] ->
     Risk.calculate_position_size rm sym price = Raise ZeroDivisionError) /\
  (pairs (trading (Risk.config rm)) <> [] -> 0 < price ->
     exists amt : Q,
       Risk.calculate_position_size rm sym price = Ok amt /\
       (amt = budget / price \/ amt = Risk.rm_max_position_size rm / price) /\
       amt <= budget / price /\
       amt <= Risk.rm_max_position_size rm / price).
Proof.
  intros budget. unfold Risk.calculate_position_size. fold budget. split.
  - intros ->. reflexivity.
  - intros Hpairs Hprice.
    destruct (pairs (trading (Risk.config rm))) as [|pair0 others] eqn:Ep;
      [contradiction|].
    cbn [length Nat.eqb].
    assert (Hne : ~ price == 0) by lra.
    destruct (feq price 0) eqn:E; [apply feq_spec in E; contradiction|].
    eexists. split; [reflexivity|].
    assert (Hinv : 0 <= / price) by (apply Qlt_le_weak, Qinv_lt_0_compat; exact Hprice).
    split; [|split].
    + destruct (fmin_cases budget (Risk.rm_max_position_size rm)) as [-> | ->]; auto.
    + unfold Qdiv. apply Qmult_le_compat_r; [apply fmin_le_l|exact Hinv].
    + unfold Qdiv. apply Qmult_le_compat_r; [apply fmin_le_r|exact Hinv].
Qed.

(** ** The life of a position *)

Lemma set_positions_same rm : Risk.set_positions rm (Risk.positions rm) = rm.
Proof. destruct rm. reflexivity. Qed.

Lemma set_positions_positions_eq rm ps :
  Risk.positions (Risk.set_positions rm ps) = ps.
Proof. reflexivity. Qed.

Lemma set_positions_twice rm ps ps' :
  Risk.set_positions (Risk.set_positions rm ps) ps' = Risk.set_positions rm ps'.
Proof. reflexivity. Qed.

(** X9.  Opening and closing is a round trip.  [remove_position] right
    after [add_position] returns the position that was added (with the
    stop-loss and take-profit levels computed at the entry price) and
    leaves no position for the symbol; if the symbol had no position before
    the two calls, the manager is back in the state it started from. *)
Theorem add_then_remove (rm : Risk.RiskManager) (sym : string) (amt entry : Q) :
  let added := Risk.add_position rm sym amt entry in
  let removed := Risk.remove_position (fst added) sym in
  snd removed = snd added /\
  Risk.get_position (fst added) sym =
    Some {| Risk.symbol := sym;
            Risk.amount := amt;
            Risk.entry_price := entry;
            Risk.stop_loss := Risk.calculate_stop_loss rm sym entry;
            Risk.take_profit := Risk.calculate_take_profit rm sym entry;
            Risk.current_price := entry;
            Risk.profit_loss := 0;
            Risk.profit_loss_percentage := 0 |} /\
  Risk.get_position (fst removed) sym = None /\
  (Risk.positions rm !! sym = None -> fst removed = rm).
Proof.
  cbn zeta. unfold Risk.remove_position, Risk.add_position, Risk.get_position.
  cbn [fst snd]. rewrite set_positions_positions_eq.
  rewrite lookup_insert_eq. cbn [fst snd].
  split; [reflexivity|]. split; [reflexivity|].
  split.
  - cbn. apply lookup_delete_eq.
  - intros Hfree. rewrite set_positions_twice.
    rewrite delete_insert_id by exact Hfree. apply set_positions_same.
Qed.

(** What [update_position] does to a held position whose entry price is
    not zero. *)
Lemma update_position_held rm sym p price :
  Risk.positions rm !! sym = Some p ->
  ~ Risk.entry_price p == 0 ->
  Risk.update_position rm sym price =
  let p' := {| Risk.symbol := Risk.symbol p;
               Risk.amount := Risk.amount p;
               Risk.entry_price := Risk.entry_price p;
               Risk.stop_loss := Risk.stop_loss p;
               Risk.take_profit := Risk.take_profit p;
               Risk.current_price := price;
               Risk.profit_loss := (price - Risk.entry_price p) * Risk.amount p;
               Risk.profit_loss_percentage := (price / Risk.entry_price p - 1) * 100 |} in
  (Risk.set_positions rm (<[sym := p']> (Risk.positions rm)), Ok p').
Proof.
  intros Hp Hne. unfold Risk.update_position. rewrite Hp.
  destruct (feq (Risk.entry_price p) 0) eqn:E;
    [apply feq_spec in E; contradiction|].
  reflexivity.
Qed.

(** X10.  The last update wins.  The profit of a position is computed from
    its entry price and amount, never from the previous current price:
    updating to one price and then to another leaves the manager, and
    returns the position, exactly as the second update alone would. *)
Theorem update_position_last_wins (rm : Risk.RiskManager) (sym : string)
    (p : Risk.Position) (price1 price2 : Q) :
  Risk.positions rm !! sym = Some p ->
  ~ Risk.entry_price p == 0 ->
  Risk.update_position (fst (Risk.update_position rm sym price1)) sym price2 =
  Risk.update_position rm sym price2.
Proof.
  intros Hp Hne.
  rewrite (update_position_held rm sym p price1 Hp Hne). cbn zeta. cbn [fst].
  erewrite update_position_held;
    [|rewrite set_positions_positions_eq; apply lookup_insert_eq|exact Hne].
  rewrite (update_position_held rm sym p price2 Hp Hne).
  cbn. rewrite insert_insert_eq. reflexivity.
Qed.

Lemma update_position_last_wins_witness :
  let rm := fst (Risk.add_position (Risk.init default_config) "BTC/USDT" 2 100) in
  Risk.update_position (fst (Risk.update_position rm "BTC/USDT" 90)) "BTC/USDT" 120 =
  Risk.update_position rm "BTC/USDT" 120.
Proof.
  cbn zeta. eapply update_position_last_wins.
  - vm_compute. reflexivity.
  - vm_compute. discriminate.
Defined.

(** X11.  For a held position with positive amount and entry price,
    [update_position] never reports a profit below the entry price nor a
    loss above it: at a price at or above the entry price the profit and
    the profit percentage it stores are not negative, at a price at or
    below it they are not positive, so both are zero at the entry price.
    The new current price is stored; amount, entry price, stop loss and
    take profit are kept. *)
Theorem update_position_profit_sign (rm : Risk.RiskManager) (sym : string)
    (p : Risk.Position) (price : Q) :
  Risk.positions rm !! sym = Some p ->
  0 < Risk.entry_price p ->
  0 < Risk.amount p ->
  exists p' : Risk.Position,
    snd (Risk.update_position rm sym price) = Ok p' /\
    Risk.get_position (fst (Risk.update_position rm sym price)) sym = Some p' /\
    Risk.current_price p' = price /\
    Risk.amount p' = Risk.amount p /\
    Risk.entry_price p' = Risk.entry_price p /\
    Risk.stop_loss p' = Risk.stop_loss p /\
    Risk.take_profit p' = Risk.take_profit p /\
    (Risk.entry_price p <= price ->
       0 <= Risk.profit_loss p' /\ 0 <= Risk.profit_loss_percentage p') /\
    (price <= Risk.entry_price p ->
       Risk.profit_loss p' <= 0 /\ Risk.profit_loss_percentage p' <= 0).
Proof.
  intros Hp He Ha.
  assert (Hne : ~ Risk.entry_price p == 0) by lra.
  rewrite (update_position_held rm sym p price Hp Hne). cbn zeta.
  eexists. split; [reflexivity|]. cbn [fst snd].
  split; [unfold Risk.get_position; rewrite set_positions_positions_eq;
          apply lookup_insert_eq|].
  cbn.
  set (e := Risk.entry_price p) in *. set (a := Risk.amount p) in *.
  do 5 (split; [reflexivity|]).
  assert (Hinv : 0 < / e) by (apply Qinv_lt_0_compat; exact He).
  assert (Hone : e / e == 1) by (field; exact Hne).
  split.
  - intros Hup. split.
    + apply Qmult_le_0_compat; lra.
    + assert (H1 : e / e <= price / e).
      { unfold Qdiv. apply Qmult_le_compat_r; lra. }
      rewrite Hone in H1.
      apply Qmult_le_0_compat; lra.
  - intros Hdown. split.
    + assert (H0 : 0 <= (e - price) * a) by (apply Qmult_le_0_compat; lra).
      assert (E : (price - e) * a == - ((e - price) * a)) by ring.
      rewrite E. lra.
    + assert (H1 : price / e <= e / e).
      { unfold Qdiv. apply Qmult_le_compat_r; lra. }
      rewrite Hone in H1.
      assert (H0 : 0 <= (1 - price / e) * 100) by (apply Qmult_le_0_compat; lra).
      assert (E : (price / e - 1) * 100 == - ((1 - price / e) * 100)) by ring.
      rewrite E. lra.
Qed.

Lemma update_position_profit_sign_witness :
  let rm := fst (Risk.add_position (Risk.init default_config) "BTC/USDT" 2 100) in
  exists p' : Risk.Position,
    snd (Risk.update_position rm "BTC/USDT" 120) = Ok p' /\
    (100 <= 120 -> 0 <= Risk.profit_loss p' /\ 0 <= Risk.profit_loss_percentage p').
Proof.
  cbn zeta.
  edestruct update_position_profit_sign
    with (rm := fst (Risk.add_position (Risk.init default_config) "BTC/USDT" 2 100))
         (sym := "BTC/USDT"%string) (price := 120)
    as (p' & Hp' & _ & _ & _ & _ & _ & _ & Hsign & _).
  - vm_compute. reflexivity.
  - reflexivity.
  - reflexivity.
  - exists p'. split; [exact Hp'|exact Hsign].
Defined.

(** ** Exit triggers *)

(** X12.  For a held position with [stop_loss < entry_price < take_profit]
    the two exit checks never fire together: at any price at most one of
    [check_stop_loss] and [check_take_profit] returns true, neither does at
    the entry price, and neither changes the manager (the position stays
    until the caller removes it). *)
Theorem exit_checks_exclusive (rm : Risk.RiskManager) (sym : string)
    (p : Risk.Position) (price : Q) :
  Risk.positions rm !! sym = Some p ->
  Risk.bracketed p ->
  ~ (snd (Risk.check_stop_loss rm sym price) = Ok true /\
     snd (Risk.check_take_profit rm sym price) = Ok true) /\
  snd (Risk.check_stop_loss rm sym (Risk.entry_price p)) = Ok false /\
  snd (Risk.check_take_profit rm sym (Risk.entry_price p)) = Ok false /\
  fst (Risk.check_stop_loss rm sym price) = rm /\
  fst (Risk.check_take_profit rm sym price) = rm.
Proof.
  intros Hp [Hsl Htp].
  unfold Risk.check_stop_loss, Risk.check_take_profit. rewrite Hp.
  split; [|split; [|split; [|split]]].
  - destruct (fle price (Risk.stop_loss p)) eqn:E1;
      destruct (fge price (Risk.take_profit p)) eqn:E2; cbn;
      try (intros [H1 H2]; discriminate).
    apply fle_spec in E1. apply fge_spec in E2. intros _.
    assert (H : Risk.take_profit p <= Risk.stop_loss p)
      by (eapply Qle_trans; eassumption).
    assert (H' : Risk.stop_loss p < Risk.take_profit p)
      by (eapply Qlt_trans; eassumption).
    apply (Qlt_not_le _ _ H' H).
  - destruct (fle (Risk.entry_price p) (Risk.stop_loss p)) eqn:E; [|reflexivity].
    apply fle_spec in E. exfalso. apply (Qlt_not_le _ _ Hsl E).
  - destruct (fge (Risk.entry_price p) (Risk.take_profit p)) eqn:E; [|reflexivity].
    apply fge_spec in E. exfalso. apply (Qlt_not_le _ _ Htp E).
  - destruct (fle price (Risk.stop_loss p)); reflexivity.
  - destruct (fge price (Risk.take_profit p)); reflexivity.
Qed.

Lemma exit_checks_exclusive_witness :
  let rm := fst (Risk.add_position (Risk.init default_config) "BTC/USDT" 2 100) in
  ~ (snd (Risk.check_stop_loss rm "BTC/USDT" 94) = Ok true /\
     snd (Risk.check_take_profit rm "BTC/USDT" 94) = Ok true).
Proof.
  cbn zeta.
  edestruct exit_checks_exclusive
    with (rm := fst (Risk.add_position (Risk.init default_config) "BTC/USDT" 2 100))
         (sym := "BTC/USDT"%string) (price := 94)
    as (H & _).
  - vm_compute. reflexivity.
  - split; reflexivity.
  - exact H.
Defined.

(** ** Portfolio value *)

#[local] Instance add_value_proper prices sym position :
  Proper (Qeq ==> Qeq) (Risk.add_value prices sym position).
Proof.
  intros x y Hxy. unfold Risk.add_value.
  destruct (prices !! sym); [rewrite Hxy; reflexivity|exact Hxy].
Qed.

Lemma add_value_comm prices s1 p1 s2 p2 v :
  Risk.add_value prices s1 p1 (Risk.add_value prices s2 p2 v) ==
  Risk.add_value prices s2 p2 (Risk.add_value prices s1 p1 v).
Proof.
  unfold Risk.add_value.
  destruct (prices !! s1), (prices !! s2); ring.
Qed.

(** X13.  [calculate_portfolio_value] counts each held position once, at
    the quoted price: opening a position for a symbol that had none raises
    the value by [amount * price] when the symbol is quoted in [prices] and
    leaves it unchanged when it is not; the value of a manager without
    positions is 0. *)
Theorem portfolio_value_add (rm : Risk.RiskManager) (prices : gmap string Q)
    (sym : string) (amt entry : Q) :
  Risk.positions rm !! sym = None ->
  Risk.calculate_portfolio_value (fst (Risk.add_position rm sym amt entry)) prices ==
  match prices !! sym with
  | Some price => Risk.calculate_portfolio_value rm prices + amt * price
  | None => Risk.calculate_portfolio_value rm prices
  end.
Proof.
  intros Hfree. unfold Risk.calculate_portfolio_value, Risk.add_position.
  cbn [fst]. rewrite set_positions_positions_eq.
  rewrite (map_fold_insert Qeq (Risk.add_value prices)); [| | |exact Hfree].
  - unfold Risk.add_value at 1. cbn [Risk.amount].
    destruct (prices !! sym); reflexivity.
  - intros j z. apply add_value_proper.
  - intros. apply add_value_comm.
Qed.

Lemma portfolio_value_add_witness :
  Risk.calculate_portfolio_value
    (fst (Risk.add_position (Risk.init default_config) "BTC/USDT" 2 100))
    (<["BTC/USDT"%string := 110]> ∅) ==
  Risk.calculate_portfolio_value (Risk.init default_config)
    (<["BTC/USDT"%string := 110]> ∅) + 2 * 110.
Proof.
  pose proof (portfolio_value_add (Risk.init default_config)
                (<["BTC/USDT"%string := 110]> ∅) "BTC/USDT" 2 100) as H.
  rewrite lookup_insert_eq in H. apply H. apply lookup_empty.
Defined.

(** ** One configuration, three readers *)

(** No call changes what [__init__] copied from the configuration. *)
Lemma exec_attributes rm c :
  Risk.config (Risk.exec rm c) = Risk.config rm /\
  Risk.rm_investment_amount (Risk.exec rm c) = Risk.rm_investment_amount rm /\
  Risk.rm_risk_percentage (Risk.exec rm c) = Risk.rm_risk_percentage rm /\
  Risk.rm_max_position_size (Risk.exec rm c) = Risk.rm_max_position_size rm /\
  Risk.rm_stop_loss_percentage (Risk.exec rm c) = Risk.rm_stop_loss_percentage rm /\
  Risk.rm_take_profit_percentage (Risk.exec rm c) = Risk.rm_take_profit_percentage rm.
Proof.
  destruct c as [sym amt entry|sym price|sym|sym|sym price|sym price]; cbn.
  - repeat split.
  - unfold Risk.update_position.
    destruct (Risk.positions rm !! sym) as [p|]; [|repeat split].
    destruct (feq (Risk.entry_price p) 0); repeat split.
  - unfold Risk.remove_position.
    destruct (Risk.positions rm !! sym); repeat split.
  - repeat split.
  - unfold Risk.check_stop_loss.
    destruct (Risk.positions rm !! sym) as [p|]; [|repeat split].
    destruct (fle price (Risk.stop_loss p)); repeat split.
  - unfold Risk.check_take_profit.
    destruct (Risk.positions rm !! sym) as [p|]; [|repeat split].
    destruct (fge price (Risk.take_profit p)); repeat split.
Qed.

Lemma exec_all_attributes cfg cs :
  let rm := Risk.exec_all (Risk.init cfg) cs in
  Risk.config rm = cfg /\
  Risk.rm_investment_amount rm = investment_amount (trading cfg) /\
  Risk.rm_risk_percentage rm = risk_percentage (trading cfg) /\
  Risk.rm_max_position_size rm = max_position_size (trading cfg) /\
  Risk.rm_stop_loss_percentage rm = stop_loss_percentage (trading cfg) /\
  Risk.rm_take_profit_percentage rm = take_profit_percentage (trading cfg).
Proof.
  cbn zeta. unfold Risk.exec_all.
  induction cs as [|c cs IH] using rev_ind.
  - repeat split.
  - rewrite foldl_app. cbn [foldl].
    destruct (exec_attributes (foldl Risk.exec (Risk.init cfg) cs) c)
      as (E1 & E2 & E3 & E4 & E5 & E6).
    destruct IH as (I1 & I2 & I3 & I4 & I5 & I6).
    repeat split; congruence.
Qed.

(** X14.  The strategy and the risk manager read the same configuration
    the same way: whatever calls the manager has served since it was
    built, [BaseStrategy.get_stop_loss], [get_take_profit] and
    [get_position_size] return what [RiskManager.calculate_stop_loss],
    [calculate_take_profit] and [calculate_position_size] return, errors
    included. *)
Theorem strategy_matches_risk_manager (cfg : Config) (cs : list Risk.call)
    (sym : string) (x : Q) :
  let rm := Risk.exec_all (Risk.init cfg) cs in
  Strategy.get_stop_loss cfg sym x = Risk.calculate_stop_loss rm sym x /\
  Strategy.get_take_profit cfg sym x = Risk.calculate_take_profit rm sym x /\
  Strategy.get_position_size cfg sym x = Risk.calculate_position_size rm sym x.
Proof.
  intros rm.
  destruct (exec_all_attributes cfg cs) as (E1 & E2 & E3 & E4 & E5 & E6).
  fold rm in E1, E2, E3, E4, E5, E6.
  unfold Strategy.get_stop_loss, Strategy.get_take_profit, Strategy.get_position_size,
    Risk.calculate_stop_loss, Risk.calculate_take_profit, Risk.calculate_position_size.
  rewrite E1, E2, E3, E4, E5, E6. repeat split.
Qed.

(** X15.  The replay and the risk manager agree on exits.  For a position
    opened at the same entry price under the same configuration, the
    stop-loss test and the take-profit test of the backtest on a bar answer
    what [check_stop_loss] and [check_take_profit] answer at the bar's
    close. *)
Theorem backtest_exits_match_risk_manager (cfg : Config) (cs : list Risk.call)
    (sym : string) (amt : Q) (p : Backtest.Position) (row : Row) :
  let rm := fst (Risk.add_position (Risk.exec_all (Risk.init cfg) cs) sym amt
                   (Backtest.entry_price p)) in
  snd (Risk.check_stop_loss rm sym (close row)) = Ok (Backtest.stop_loss_hit cfg p row) /\
  snd (Risk.check_take_profit rm sym (close row)) = Ok (Backtest.take_profit_hit cfg p row).
Proof.
  intros rm. subst rm.
  destruct (exec_all_attributes cfg cs) as (_ & _ & _ & _ & E5 & E6).
  cbn zeta in E5, E6.
  unfold Risk.check_stop_loss, Risk.check_take_profit, Risk.add_position.
  cbn [fst]. rewrite set_positions_positions_eq, lookup_insert_eq.
  cbn [Risk.stop_loss Risk.take_profit].
  unfold Risk.calculate_stop_loss, Risk.calculate_take_profit,
    Backtest.stop_loss_hit, Backtest.take_profit_hit.
  rewrite E5, E6.
  split.
  - destruct (fle _ _); reflexivity.
  - destruct (fge _ _); reflexivity.
Qed.

(** ** The ledger of a backtest *)

(** A property of the state that opening a position on a bar with the buy
    signal and closing one keep holds of the state the Result is read
    from; that state has no open position. *)
Lemma backtest_invariant (P : Backtest.State -> Prop)
    (self : Backtest.TradingBot) (sym start_d end_d tf : string) (initial : Q)
    (df : list Row) (r : Backtest.Result) :
  (forall prev_row row st, row ∈ df -> Backtest.position st = None ->
     Backtest.buy_signal (Backtest.config self) prev_row row = true ->
     P st -> P (Backtest.open_position sym row st)) ->
  (forall row p st, row ∈ df -> Backtest.position st = Some p ->
     P st -> P (Backtest.close_position sym row p st)) ->
  P {| Backtest.balance := initial; Backtest.position := None; Backtest.trades := [] |} ->
  Backtest.backtest self sym start_d end_d tf initial df = Ok r ->
  exists st : Backtest.State,
    P st /\
    Backtest.position st = None /\
    Backtest.res_trades r = Backtest.trades st /\
    Backtest.final_balance r = Backtest.balance st /\
    Backtest.profit_loss r = Backtest.balance st - initial /\
    Backtest.initial_balance r = initial.
Proof.
  intros Hopen Hclose H0 Hr. unfold Backtest.backtest in Hr.
  set (st1 := Backtest.loop (Backtest.config self) sym df _) in Hr.
  assert (H1 : P st1).
  { apply (loop_invariant P); [|exact H0].
    intros prev_row row st Hin HP.
    destruct (step_cases (Backtest.config self) sym prev_row row st)
      as [E|[(Hp & Hb & E)|(p & Hp & E)]]; rewrite E.
    - exact HP.
    - eapply Hopen; eassumption.
    - eapply Hclose; eassumption. }
  unfold Backtest.liquidate in Hr.
  destruct (Backtest.position st1) as [p|] eqn:Hp.
  - assert (Hdf : exists rows last_row, df = rows ++ [last_row]).
    { unfold st1 in Hp. eapply loop_open_has_last; [|exact Hp]. reflexivity. }
    destruct Hdf as (rows & last_row & Hdf).
    rewrite Hdf in Hr at 1. rewrite iloc_final in Hr.
    cbn [mbind outcome_bind] in Hr.
    assert (H2 : P (Backtest.close_position sym last_row p st1)).
    { apply Hclose; [|exact Hp|exact H1].
      rewrite Hdf. apply elem_of_app. right. apply list_elem_of_here. }
    exists (Backtest.close_position sym last_row p st1).
    split; [exact H2|]. split; [reflexivity|].
    destruct (feq initial 0);
      [destruct (Backtest.trades (Backtest.close_position sym last_row p st1)) eqn:E;
       cbn in Hr; [discriminate Hr|]|cbn in Hr];
      injection Hr as <-; cbn; rewrite ?E; repeat split; reflexivity.
  - cbn [mbind outcome_bind] in Hr.
    exists st1. split; [exact H1|]. split; [exact Hp|].
    destruct (feq initial 0);
      [destruct (Backtest.trades st1) eqn:E; cbn in Hr; [discriminate Hr|]|cbn in Hr];
      injection Hr as <-; cbn; rewrite ?E; repeat split; reflexivity.
Qed.

Lemma open_position_settled sym row st :
  Backtest.position st = None -> Backtest.settled st ->
  Backtest.settled (Backtest.open_position sym row st).
Proof.
  unfold Backtest.settled. intros Hp Hs. rewrite Hp in Hs. cbn.
  eexists. eexists. split; [reflexivity|]. split; [exact Hs|]. split; reflexivity.
Qed.

(** X16.  The ledger accounts for the balance.  Whenever [backtest]
    returns, replaying its ledger from the initial balance, oldest entry
    first, subtracting [amount * price] for a buy and adding it for a sell,
    gives the final balance of the Result: no money moves without a ledger
    entry, and every entry moves exactly its [amount * price].  The profit
    of the Result is that final balance minus the initial one. *)
Theorem backtest_balance_replays_ledger (self : Backtest.TradingBot)
    (sym start_d end_d tf : string) (initial : Q) (df : list Row)
    (r : Backtest.Result) :
  Backtest.backtest self sym start_d end_d tf initial df = Ok r ->
  Backtest.initial_balance r = initial /\
  Backtest.final_balance r = Backtest.replay initial (Backtest.res_trades r) /\
  Backtest.profit_loss r = Backtest.replay initial (Backtest.res_trades r) - initial.
Proof.
  intros Hr.
  destruct (backtest_invariant
              (fun st => Backtest.balance st =
                         Backtest.replay initial (Backtest.trades st))
              self sym start_d end_d tf initial df r)
    as (st & Hb & _ & Ht & Hf & Hpl & Hi).
  - intros prev_row row st _ _ _ Hb.
    cbn [Backtest.balance Backtest.trades Backtest.open_position].
    unfold Backtest.replay. rewrite foldl_app. fold (Backtest.replay initial (Backtest.trades st)).
    rewrite <- Hb. reflexivity.
  - intros row p st _ _ Hb.
    cbn [Backtest.balance Backtest.trades Backtest.close_position].
    unfold Backtest.replay. rewrite foldl_app. fold (Backtest.replay initial (Backtest.trades st)).
    rewrite <- Hb. reflexivity.
  - reflexivity.
  - exact Hr.
  - rewrite Hi, Hf, Hpl, Ht, Hb. repeat split; reflexivity.
Qed.

Lemma backtest_balance_replays_ledger_witness :
  exists r : Backtest.Result,
    Backtest.backtest sample_bot "BTC/USDT" "2024-01-01" "2024-01-02" "15m" 100
      [bar0; bar1; bar2; bar3] = Ok r /\
    Backtest.final_balance r = Backtest.replay 100 (Backtest.res_trades r).
Proof.
  destruct (Backtest.backtest sample_bot "BTC/USDT" "2024-01-01" "2024-01-02" "15m" 100
              [bar0; bar1; bar2; bar3]) as [r|e] eqn:E.
  - exists r. split; [reflexivity|].
    exact (proj1 (proj2 (backtest_balance_replays_ledger _ _ _ _ _ _ _ _ E))).
  - exfalso. vm_compute in E. discriminate E.
Defined.

(** The loop makes at most one trade per iteration. *)
Lemma run_trades_length cfg sym prev_row rows st :
  (length (Backtest.trades (Backtest.run cfg sym prev_row rows st)) <=
   length (Backtest.trades st) + length rows)%nat.
Proof.
  revert prev_row st. induction rows as [|row rest IH]; intros prev_row st.
  - cbn. lia.
  - cbn [Backtest.run length].
    etransitivity; [apply IH|].
    destruct (step_cases cfg sym prev_row row st) as [E|[(_ & _ & E)|(p & _ & E)]];
      rewrite E; cbn; rewrite ?length_app; cbn; lia.
Qed.

Lemma rounds_even ts :
  Backtest.rounds ts = true -> Nat.even (length ts) = true.
Proof.
  induction ts as [|a|b s l IH] using pairs_ind; intros H.
  - reflexivity.
  - discriminate H.
  - cbn in H. destruct (Backtest.type b); [|discriminate H].
    destruct (Backtest.type s); [discriminate H|].
    apply andb_true_iff in H as [_ H]. cbn. apply IH. exact H.
Qed.

(** X18.  The size of the ledger: whenever the backtest returns, its
    ledger has an even number of entries (every buy has its sell) and no
    more entries than the frame has bars.  (The loop makes at most one
    trade on each bar it visits; the closing sale can share the last bar
    with a buy made on it.) *)
Theorem backtest_trade_count (self : Backtest.TradingBot)
    (sym start_d end_d tf : string) (initial : Q) (df : list Row)
    (r : Backtest.Result) :
  Backtest.backtest self sym start_d end_d tf initial df = Ok r ->
  (length (Backtest.res_trades r) <= length df)%nat /\
  Nat.even (length (Backtest.res_trades r)) = true.
Proof.
  intros Hr. split.
  - unfold Backtest.backtest in Hr.
    set (st1 := Backtest.loop (Backtest.config self) sym df _) in Hr.
    assert (Hlen : (length (Backtest.trades st1) <= length df - 1)%nat).
    { unfold st1. destruct df as [|first_row rest]; [cbn; lia|].
      cbn [Backtest.loop]. etransitivity; [apply run_trades_length|]. cbn. lia. }
    unfold Backtest.liquidate in Hr.
    destruct (Backtest.position st1) as [p|] eqn:Hp.
    + assert (Hdf : exists rows last_row, df = rows ++ [last_row]).
      { unfold st1 in Hp. eapply loop_open_has_last; [|exact Hp]. reflexivity. }
      destruct Hdf as (rows & last_row & Hdf).
      rewrite Hdf in Hr at 1. rewrite iloc_final in Hr.
      cbn [mbind outcome_bind] in Hr.
      assert (Hpos : (1 <= length df)%nat)
        by (rewrite Hdf, length_app; cbn; lia).
      assert (Hl2 : (length (Backtest.trades (Backtest.close_position sym last_row p st1))
                     <= length df)%nat)
        by (cbn; rewrite length_app; cbn; lia).
      destruct (feq initial 0);
        [destruct (Backtest.trades (Backtest.close_position sym last_row p st1)) eqn:E;
         cbn in Hr; [discriminate Hr|]|cbn in Hr];
        injection Hr as <-; exact Hl2.
    + cbn [mbind outcome_bind] in Hr.
      assert (Hl2 : (length (Backtest.trades st1) <= length df)%nat) by lia.
      destruct (feq initial 0);
        [destruct (Backtest.trades st1) eqn:E; cbn in Hr; [discriminate Hr|]|cbn in Hr];
        injection Hr as <-; exact Hl2.
  - destruct (backtest_invariant Backtest.settled
                self sym start_d end_d tf initial df r)
      as (st & Hs & Hp & Ht & _).
    + intros prev_row row st _ Hp _ Hs. apply open_position_settled; assumption.
    + intros row p st _ Hp Hs. unfold Backtest.settled.
      cbn [Backtest.position Backtest.close_position].
      apply close_position_rounds; assumption.
    + reflexivity.
    + exact Hr.
    + unfold Backtest.settled in Hs. rewrite Hp in Hs.
      rewrite Ht. apply rounds_even. exact Hs.
Qed.

Lemma backtest_trade_count_witness :
  exists r : Backtest.Result,
    Backtest.backtest sample_bot "BTC/USDT" "2024-01-01" "2024-01-02" "15m" 100
      [bar0; bar1] = Ok r /\
    (length (Backtest.res_trades r) <= 2)%nat.
Proof.
  destruct (Backtest.backtest sample_bot "BTC/USDT" "2024-01-01" "2024-01-02" "15m" 100
              [bar0; bar1]) as [r|e] eqn:E.
  - exists r. split; [reflexivity|].
    exact (proj1 (backtest_trade_count _ _ _ _ _ _ _ _ E)).
  - exfalso. vm_compute in E. discriminate E.
Defined.

(** X19.  No entry without an RSI between 30 and 50: if no bar of the
    frame has its RSI in the closed band, the backtest (with a non-zero
    initial balance) returns an empty ledger and the initial balance,
    whatever the moving averages do. *)
Theorem backtest_without_rsi_band (self : Backtest.TradingBot)
    (sym start_d end_d tf : string) (initial : Q) (df : list Row) :
  ~ initial == 0 ->
  (forall row, row ∈ df -> rsi row < 30 \/ 50 < rsi row) ->
  exists r : Backtest.Result,
    Backtest.backtest self sym start_d end_d tf initial df = Ok r /\
    Backtest.res_trades r = [] /\
    Backtest.final_balance r = initial.
Proof.
  intros Hne Hband.
  set (st0 := {| Backtest.balance := initial;
                 Backtest.position := None;
                 Backtest.trades := [] |}).
  assert (Hloop : Backtest.loop (Backtest.config self) sym df st0 = st0).
  { apply (loop_invariant (fun st => st = st0)); [|reflexivity].
    intros prev_row row st Hin ->. unfold Backtest.step. cbn [Backtest.position st0].
    destruct (Backtest.buy_signal (Backtest.config self) prev_row row) eqn:E;
      [|reflexivity].
    exfalso. unfold Backtest.buy_signal in E.
    apply andb_true_iff in E as [_ E]. apply andb_true_iff in E as [E1 E2].
    apply fge_spec in E1. apply fle_spec in E2.
    destruct (Hband row Hin) as [H|H]; lra. }
  assert (Hfeq : feq initial 0 = false).
  { destruct (feq initial 0) eqn:E; [|reflexivity].
    apply feq_spec in E. contradiction. }
  unfold Backtest.backtest. fold st0. rewrite Hloop, Hfeq.
  eexists. split; [reflexivity|]. split; reflexivity.
Qed.

Lemma backtest_without_rsi_band_witness :
  exists r : Backtest.Result,
    Backtest.backtest sample_bot "BTC/USDT" "2024-01-01" "2024-01-02" "15m" 100
      [overbought_prev; overbought_last] = Ok r /\
    Backtest.res_trades r = [] /\
    Backtest.final_balance r = 100.
Proof.
  apply backtest_without_rsi_band.
  - vm_compute. discriminate.
  - intros row Hin.
    apply elem_of_cons in Hin as [->|Hin]; [right; reflexivity|].
    apply elem_of_cons in Hin as [->|Hin]; [right; reflexivity|].
    apply elem_of_nil in Hin. contradiction.
Defined.

Lemma ledger_at_closes_snoc sym df ts sd amt row :
  row ∈ df ->
  Backtest.ledger_at_closes sym df ts ->
  Backtest.ledger_at_closes sym df
    (ts ++ [Backtest.new_trade ts sym sd (close row) amt row]).
Proof.
  intros Hin Hts. unfold Backtest.ledger_at_closes in *.
  apply Forall_app. split; [exact Hts|].
  apply Forall_cons. split; [|apply Forall_nil_2].
  cbn. split; [reflexivity|]. split; [reflexivity|].
  exists row. repeat split. exact Hin.
Qed.

(** X20.  Every trade of the ledger is made for the backtested symbol, has
    status "completed", and is priced at the close of the bar whose
    timestamp it carries; the closing sale after the loop at the close of
    the last bar is no exception. *)
Theorem backtest_trades_at_closes (self : Backtest.TradingBot)
    (sym start_d end_d tf : string) (initial : Q) (df : list Row)
    (r : Backtest.Result) :
  Backtest.backtest self sym start_d end_d tf initial df = Ok r ->
  Backtest.ledger_at_closes sym df (Backtest.res_trades r).
Proof.
  intros Hr.
  destruct (backtest_invariant
              (fun st => Backtest.ledger_at_closes sym df (Backtest.trades st))
              self sym start_d end_d tf initial df r)
    as (st & Hs & _ & Ht & _).
  - intros prev_row row st Hin _ _ Hs. cbn. apply ledger_at_closes_snoc; assumption.
  - intros row p st Hin _ Hs. cbn. apply ledger_at_closes_snoc; assumption.
  - apply Forall_nil_2.
  - exact Hr.
  - rewrite Ht. exact Hs.
Qed.

Lemma backtest_trades_at_closes_witness :
  exists r : Backtest.Result,
    Backtest.backtest sample_bot "BTC/USDT" "2024-01-01" "2024-01-02" "15m" 100
      [bar0; bar1; bar2; bar3] = Ok r /\
    Backtest.ledger_at_closes "BTC/USDT" [bar0; bar1; bar2; bar3] (Backtest.res_trades r).
Proof.
  destruct (Backtest.backtest sample_bot "BTC/USDT" "2024-01-01" "2024-01-02" "15m" 100
              [bar0; bar1; bar2; bar3]) as [r|e] eqn:E.
  - exists r. split; [reflexivity|].
    exact (backtest_trades_at_closes _ _ _ _ _ _ _ _ E).
  - exfalso. vm_compute in E. discriminate E.
Defined.

(** ** Dictionaries in insertion order *)

Lemma dict_get_set_eq {A : Type} (k : string) (v : A) d :
  dict_get k (dict_set k v d) = Some v.
Proof.
  induction d as [|[k' v'] d IH]; cbn.
  - destruct (decide (k = k)); [reflexivity|contradiction].
  - destruct (decide (k' = k)) as [->|Hne]; cbn.
    + destruct (decide (k = k)); [reflexivity|contradiction].
    + destruct (decide (k' = k)); [contradiction|exact IH].
Qed.

Lemma dict_get_set_ne {A : Type} (k k0 : string) (v : A) d :
  k0 <> k -> dict_get k0 (dict_set k v d) = dict_get k0 d.
Proof.
  intros Hne. induction d as [|[k' v'] d IH]; cbn.
  - destruct (decide (k = k0)); [congruence|reflexivity].
  - destruct (decide (k' = k)) as [->|Hne']; cbn.
    + destruct (decide (k = k0)); [congruence|reflexivity].
    + destruct (decide (k' = k0)); [reflexivity|exact IH].
Qed.

Lemma dict_set_twice {A : Type} (k : string) (v v' : A) d :
  dict_set k v' (dict_set k v d) = dict_set k v' d.
Proof.
  induction d as [|[k0 v0] d IH]; cbn.
  - destruct (decide (k = k)); [reflexivity|contradiction].
  - destruct (decide (k0 = k)) as [->|Hne]; cbn.
    + destruct (decide (k = k)); [reflexivity|contradiction].
    + destruct (decide (k0 = k)); [contradiction|]. rewrite IH. reflexivity.
Qed.

Lemma dict_set_keys_present {A : Type} (k : string) (v v0 : A) d :
  dict_get k d = Some v0 -> map fst (dict_set k v d) = map fst d.
Proof.
  induction d as [|[k' v'] d IH]; cbn; [discriminate|].
  destruct (decide (k' = k)) as [->|Hne]; cbn; [reflexivity|].
  intros H. rewrite (IH H). reflexivity.
Qed.

Lemma dict_set_keys_fresh {A : Type} (k : string) (v : A) d :
  dict_get k d = None -> dict_set k v d = d ++ [(k, v)].
Proof.
  induction d as [|[k' v'] d IH]; cbn; [reflexivity|].
  destruct (decide (k' = k)) as [->|Hne]; [discriminate|].
  intros H. rewrite (IH H). reflexivity.
Qed.

Lemma dict_get_elem {A : Type} (k : string) (v : A) d :
  dict_get k d = Some v -> v ∈ map snd d.
Proof.
  induction d as [|[k' v'] d IH]; cbn; [discriminate|].
  destruct (decide (k' = k)) as [->|Hne].
  - intros [= ->]. apply list_elem_of_here.
  - intros H. apply list_elem_of_further. apply IH. exact H.
Qed.

(** ** The order manager *)

(** X21.  An order is stored only once the exchange has accepted it.
    [create_buy_order] and [create_sell_order] either pass on the failure
    of the exchange and leave the stored orders as they were, or store,
    under the new id, one order of the requested side, symbol and amount,
    with the exchange's id and status and, as price, the limit price if
    one was given and the exchange's price otherwise; they return the
    stored order and touch no order stored under another id. *)
Theorem create_order_outcome (ex : Orders.Exchange) (om : Orders.OrderManager)
    (order_id now sym : string) (amt : Q) (limit : option Q) (sd : Backtest.side) :
  let create := match sd with
                | Backtest.buy => Orders.create_buy_order
                | Backtest.sell => Orders.create_sell_order
                end in
  match create ex om order_id now sym amt limit with
  | (om', Failed e) => om' = om
  | (om', Done stored) =>
      dict_get order_id (Orders.orders om') = Some stored /\
      Orders.id stored = order_id /\
      Orders.symbol stored = sym /\
      Orders.type stored = sd /\
      Orders.amount stored = amt /\
      (forall p, limit = Some p -> Orders.price stored = Some p) /\
      (forall other, other <> order_id ->
         dict_get other (Orders.orders om') = dict_get other (Orders.orders om))
  end.
Proof.
  destruct sd; cbn zeta;
    unfold Orders.create_buy_order, Orders.create_sell_order, Orders.store_order;
    destruct limit as [p|];
    match goal with
    | |- context [match ?call with Done _ => _ | Failed _ => _ end] =>
        destruct call as [order|e]
    end; try reflexivity; cbn;
    (split; [apply dict_get_set_eq|]);
    repeat (split; [reflexivity|]);
    (split; [intros q Hq; congruence|]);
    intros other Hne; apply dict_get_set_ne; exact Hne.
Qed.

(** X22.  [cancel_order] and [get_order] work on the named order only.
    For an id that is not stored they raise the "not found" [ValueError],
    whatever the exchange would answer, and change nothing; for a stored
    id, whether the exchange answers or fails, every order stored under
    another id stays as it was and no id is added or removed. *)
Theorem order_calls_are_local (ex : Orders.Exchange) (om : Orders.OrderManager)
    (order_id : string) :
  (dict_get order_id (Orders.orders om) = None ->
     Orders.cancel_order ex om order_id = (om, Failed (Orders.order_not_found order_id)) /\
     Orders.get_order ex om order_id = (om, Failed (Orders.order_not_found order_id))) /\
  (forall other, other <> order_id ->
     dict_get other (Orders.orders (fst (Orders.cancel_order ex om order_id))) =
       dict_get other (Orders.orders om) /\
     dict_get other (Orders.orders (fst (Orders.get_order ex om order_id))) =
       dict_get other (Orders.orders om)) /\
  map fst (Orders.orders (fst (Orders.cancel_order ex om order_id))) =
    map fst (Orders.orders om) /\
  map fst (Orders.orders (fst (Orders.get_order ex om order_id))) =
    map fst (Orders.orders om).
Proof.
  unfold Orders.cancel_order, Orders.get_order.
  destruct (dict_get order_id (Orders.orders om)) as [order|] eqn:Hget.
  - split; [discriminate|].
    destruct (Orders.exchange_cancel_order ex _ _) as [[]|e1];
      destruct (Orders.fetch_order ex _ _) as [bo|e2]; cbn [fst Orders.orders];
      (split; [intros other Hne; split;
                 try reflexivity; apply dict_get_set_ne; exact Hne|]);
      split; try reflexivity; eapply dict_set_keys_present; exact Hget.
  - split; [intros _; split; reflexivity|].
    split; [intros other _; split; reflexivity|]. split; reflexivity.
Qed.

(** X23.  Cancelling a stored order marks it and nothing else: when the
    exchange accepts the cancellation, [cancel_order] returns the stored
    order with status "canceled" and all other fields unchanged, stores it
    under the same id, and [get_closed_orders] then lists it; when the
    exchange refuses, the stored orders stay as they were. *)
Theorem cancel_order_outcome (ex : Orders.Exchange) (om : Orders.OrderManager)
    (order_id : string) (order : Orders.Order) :
  dict_get order_id (Orders.orders om) = Some order ->
  match Orders.cancel_order ex om order_id with
  | (om', Failed e) => om' = om
  | (om', Done order') =>
      order' = Orders.with_status order "canceled" /\
      dict_get order_id (Orders.orders om') = Some order' /\
      order' ∈ Orders.get_closed_orders om' /\
      Orders.exchange_id order' = Orders.exchange_id order /\
      Orders.symbol order' = Orders.symbol order /\
      Orders.type order' = Orders.type order /\
      Orders.amount order' = Orders.amount order /\
      Orders.price order' = Orders.price order
  end.
Proof.
  intros Hget. unfold Orders.cancel_order. rewrite Hget.
  destruct (Orders.exchange_cancel_order ex _ _) as [[]|e]; [|reflexivity].
  split; [reflexivity|].
  split; [apply dict_get_set_eq|].
  split; [|repeat split].
  unfold Orders.get_closed_orders. apply list_elem_of_filter. split.
  - reflexivity.
  - eapply dict_get_elem. cbn. apply dict_get_set_eq.
Qed.

Lemma cancel_order_outcome_witness :
  match Orders.cancel_order sample_exchange sample_orders "id-1" with
  | (om', Failed e) => om' = sample_orders
  | (om', Done order') =>
      order' = Orders.with_status sample_order "canceled" /\
      dict_get "id-1" (Orders.orders om') = Some order' /\
      order' ∈ Orders.get_closed_orders om' /\
      Orders.exchange_id order' = Orders.exchange_id sample_order /\
      Orders.symbol order' = Orders.symbol sample_order /\
      Orders.type order' = Orders.type sample_order /\
      Orders.amount order' = Orders.amount sample_order /\
      Orders.price order' = Orders.price sample_order
  end.
Proof.
  apply (cancel_order_outcome sample_exchange sample_orders "id-1" sample_order).
  vm_compute. reflexivity.
Defined.

(** ** The live loop *)

Lemma with_orders_same bot : Live.with_orders bot (Live.order_manager bot) = bot.
Proof. destruct bot. reflexivity. Qed.

Lemma placed_by_store bot om order_id now sym sd amt order o' :
  Orders.store_order (Live.order_manager bot) order_id now sym sd amt None order
    = (om, Done o') ->
  Live.placed bot (Live.with_orders bot om) order_id sd sym amt.
Proof.
  unfold Orders.store_order. intros H. injection H as Hom Ho. subst om o'.
  split.
  - eexists. cbn. split; [apply dict_get_set_eq|]. repeat split.
  - intros other Hne. cbn. apply dict_get_set_ne. exact Hne.
Qed.

(** Selling out a held position either stops at the exchange, with the bot
    as it was, or stores the sell order and removes the position. *)
Lemma sell_out_cases ex notifier bot order_id now sym amt notes q :
  Risk.positions (Live.risk_manager bot) !! sym = Some q ->
  let bot' := fst (Live.sell_out ex notifier bot order_id now sym amt notes) in
  (bot' = bot /\ Live.sell_refused ex sym amt) \/
  (Live.config bot' = Live.config bot /\
   Live.risk_manager bot' = Risk.exec (Live.risk_manager bot) (Risk.RemovePosition sym) /\
   Risk.positions (Live.risk_manager bot') =
     delete sym (Risk.positions (Live.risk_manager bot)) /\
   Live.placed bot bot' order_id Backtest.sell sym amt).
Proof.
  intros Hq. cbn zeta. unfold Live.sell_out, Orders.create_sell_order.
  destruct (Orders.create_market_sell_order ex sym amt) as [order|e] eqn:Hex.
  - right.
    destruct (Orders.store_order _ _ _ _ _ _ _ order) as [om [o'|e']] eqn:Hst;
      [|unfold Orders.store_order in Hst; discriminate Hst].
    pose proof (placed_by_store _ _ _ _ _ _ _ _ _ Hst) as Hpl.
    unfold Risk.exec, Risk.remove_position.
    cbn [Live.risk_manager Live.with_orders]. rewrite Hq.
    cbn [fst Live.risk_manager Live.with_risk Live.config Live.with_orders
         Risk.positions Risk.set_positions].
    split; [reflexivity|]. split; [reflexivity|]. split; [reflexivity|].
    exact Hpl.
  - left. cbn [fst]. split; [apply with_orders_same|]. exists e. exact Hex.
Qed.

(** What [update_position] leaves in the dictionary for a held position,
    whether or not the last write was reached. *)
Lemma update_position_writes rm sym price p :
  Risk.positions rm !! sym = Some p ->
  let r := Risk.update_position rm sym price in
  fst r = Risk.exec rm (Risk.UpdatePosition sym price) /\
  (forall e, snd r = Raise e -> Risk.entry_price p == 0) /\
  exists p',
    Risk.positions (fst r) = <[sym := p']> (Risk.positions rm) /\
    Risk.symbol p' = Risk.symbol p /\
    Risk.amount p' = Risk.amount p /\
    Risk.entry_price p' = Risk.entry_price p /\
    Risk.stop_loss p' = Risk.stop_loss p /\
    Risk.take_profit p' = Risk.take_profit p /\
    Risk.current_price p' = price /\
    Risk.profit_loss p' = (price - Risk.entry_price p) * Risk.amount p.
Proof.
  intros Hp. cbn zeta. split; [reflexivity|].
  unfold Risk.update_position. rewrite Hp.
  destruct (feq (Risk.entry_price p) 0) eqn:Hz; cbn [fst snd].
  - split; [intros _ _; apply feq_spec; exact Hz|].
    eexists. split; [reflexivity|]. cbn. repeat split.
  - split; [intros e He; discriminate He|].
    eexists. split; [reflexivity|]. cbn. repeat split.
Qed.

(** The ways a turn of the loop can go, by the position held before it. *)
Lemma process_signal_cases ex notifier bot order_id now sym signal df last_row :
  iloc df (-1) = Ok last_row ->
  let bot' := fst (Live.process_signal ex notifier bot order_id now sym signal df) in
  let rm := Live.risk_manager bot in
  let price := close last_row in
  Live.config bot' = Live.config bot /\
  match Risk.positions rm !! sym with
  | None =>
      bot' = bot \/
      (signal = 1%Z /\ exists amt,
         Risk.calculate_position_size rm sym price = Ok amt /\
         Live.risk_manager bot' = Risk.exec rm (Risk.AddPosition sym amt price) /\
         Live.placed bot bot' order_id Backtest.buy sym amt)
  | Some p =>
      let rm1 := Risk.exec rm (Risk.UpdatePosition sym price) in
      (signal = (-1)%Z /\ bot' = bot /\ Live.sell_refused ex sym (Risk.amount p)) \/
      (signal = (-1)%Z /\
         Live.risk_manager bot' = Risk.exec rm (Risk.RemovePosition sym) /\
         Live.placed bot bot' order_id Backtest.sell sym (Risk.amount p)) \/
      (signal <> (-1)%Z /\
         Live.risk_manager bot' = rm1 /\
         Live.order_manager bot' = Live.order_manager bot /\
         (Risk.entry_price p == 0 \/
          (Risk.stop_loss p < price /\ price < Risk.take_profit p) \/
          Live.sell_refused ex sym (Risk.amount p))) \/
      (signal <> (-1)%Z /\
         Live.risk_manager bot' = Risk.exec rm1 (Risk.RemovePosition sym) /\
         Live.placed bot bot' order_id Backtest.sell sym (Risk.amount p) /\
         (price <= Risk.stop_loss p \/ Risk.take_profit p <= price))
  end.
Proof.
  intros Hlast. cbn zeta. unfold Live.process_signal, Risk.get_position.
  rewrite Hlast.
  destruct (Risk.positions (Live.risk_manager bot) !! sym) as [p|] eqn:Hp.
  - destruct (signal =? -1)%Z eqn:Hsig.
    + apply Z.eqb_eq in Hsig.
      match goal with
      | |- context [Live.sell_out ?a ?b ?c ?d ?e ?f ?g ?h] =>
          destruct (sell_out_cases a b c d e f g h p Hp) as [[Hb Hr]|(Hc & Hr & _ & Hpl)]
      end.
      * cbn zeta in Hb. rewrite Hb. split; [reflexivity|]. left. auto.
      * split; [exact Hc|]. right. left. auto.
    + apply Z.eqb_neq in Hsig.
      destruct (update_position_writes (Live.risk_manager bot) sym (close last_row) p Hp)
        as (Hrm1 & Hraise & p' & Hps & _ & Hamt & _ & Hsl & Htp & _).
      cbn zeta in *.
      destruct (Risk.update_position (Live.risk_manager bot) sym (close last_row))
        as [rm1 [u|e]] eqn:Hu; cbn [fst snd] in *.
      2:{ split; [reflexivity|]. right. right. left.
          split; [exact Hsig|]. split; [exact Hrm1|]. split; [reflexivity|].
          left. eapply Hraise. reflexivity. }
      assert (Hp1 : Risk.positions (Live.risk_manager (Live.with_risk bot rm1)) !! sym
                    = Some p').
      { cbn. rewrite Hps. apply lookup_insert_eq. }
      assert (Hp1' : Risk.positions rm1 !! sym = Some p').
      { rewrite Hps. apply lookup_insert_eq. }
      unfold Risk.check_stop_loss, Risk.check_take_profit. rewrite Hp1'.
      rewrite Hsl, Htp.
      destruct (fle (close last_row) (Risk.stop_loss p)) eqn:Hstop; cbn [snd].
      * apply fle_spec in Hstop.
        match goal with
        | |- context [Live.sell_out ?a ?b ?c ?d ?e ?f ?g ?h] =>
            destruct (sell_out_cases a b c d e f g h p' Hp1) as [[Hb Hr]|(Hc & Hr & _ & Hpl)]
        end; cbn zeta in *.
        -- rewrite Hb. split; [reflexivity|]. right. right. left.
           split; [exact Hsig|]. split; [exact Hrm1|]. split; [reflexivity|].
           right. right. exact Hr.
        -- split; [exact Hc|]. right. right. right.
           split; [exact Hsig|]. split; [rewrite Hr, <- Hrm1; reflexivity|].
           split; [exact Hpl|]. left. exact Hstop.
      * assert (Hstop' : Risk.stop_loss p < close last_row).
        { apply Qnot_le_lt. intros H. apply fle_spec in H. congruence. }
        destruct (fge (close last_row) (Risk.take_profit p)) eqn:Htake; cbn [snd].
        -- apply fge_spec in Htake.
           match goal with
           | |- context [Live.sell_out ?a ?b ?c ?d ?e ?f ?g ?h] =>
               destruct (sell_out_cases a b c d e f g h p' Hp1)
                 as [[Hb Hr]|(Hc & Hr & _ & Hpl)]
           end; cbn zeta in *.
           ++ rewrite Hb. split; [reflexivity|]. right. right. left.
              split; [exact Hsig|]. split; [exact Hrm1|]. split; [reflexivity|].
              right. right. exact Hr.
           ++ split; [exact Hc|]. right. right. right.
              split; [exact Hsig|]. split; [rewrite Hr, <- Hrm1; reflexivity|].
              split; [exact Hpl|]. right. exact Htake.
        -- assert (Htake' : close last_row < Risk.take_profit p).
           { apply Qnot_le_lt. intros H. apply fge_spec in H. congruence. }
           split; [reflexivity|]. right. right. left.
           split; [exact Hsig|]. split; [exact Hrm1|]. split; [reflexivity|].
           right. left. split; assumption.
  - destruct (signal =? 1)%Z eqn:Hsig; [|split; [reflexivity|left; reflexivity]].
    apply Z.eqb_eq in Hsig.
    destruct (Risk.calculate_position_size (Live.risk_manager bot) sym (close last_row))
      as [amt|e] eqn:Hsize; [|split; [reflexivity|left; reflexivity]].
    unfold Orders.create_buy_order.
    destruct (Orders.create_market_buy_order ex sym amt) as [order|e] eqn:Hex.
    + destruct (Orders.store_order _ _ _ _ _ _ _ order) as [om [o'|e']] eqn:Hst;
        [|unfold Orders.store_order in Hst; discriminate Hst].
      pose proof (placed_by_store _ _ _ _ _ _ _ _ _ Hst) as Hpl.
      cbn [fst]. split; [reflexivity|]. right.
      split; [exact Hsig|]. exists amt. split; [reflexivity|].
      split; [reflexivity|]. exact Hpl.
    + cbn [fst]. split; [rewrite with_orders_same; reflexivity|].
      left. apply with_orders_same.
Qed.

Lemma exec_other rm c other :
  Risk.call_symbol c <> other ->
  Risk.positions (Risk.exec rm c) !! other = Risk.positions rm !! other.
Proof.
  intros Hne.
  destruct c as [sym amt entry|sym price|sym|sym|sym price|sym price];
    cbn [Risk.call_symbol] in Hne; cbn [Risk.exec].
  - cbn. apply lookup_insert_ne. exact Hne.
  - unfold Risk.update_position.
    destruct (Risk.positions rm !! sym) as [p|]; [|reflexivity].
    destruct (feq (Risk.entry_price p) 0); cbn; apply lookup_insert_ne; exact Hne.
  - unfold Risk.remove_position.
    destruct (Risk.positions rm !! sym) as [p|]; [|reflexivity].
    cbn. apply lookup_delete_ne. exact Hne.
  - reflexivity.
  - unfold Risk.check_stop_loss.
    destruct (Risk.positions rm !! sym) as [p|]; [|reflexivity].
    destruct (fle price (Risk.stop_loss p)); reflexivity.
  - unfold Risk.check_take_profit.
    destruct (Risk.positions rm !! sym) as [p|]; [|reflexivity].
    destruct (fge price (Risk.take_profit p)); reflexivity.
Qed.

Lemma exec_remove_lookup rm sym :
  Risk.positions (Risk.exec rm (Risk.RemovePosition sym)) !! sym = None.
Proof.
  cbn [Risk.exec]. unfold Risk.remove_position.
  destruct (Risk.positions rm !! sym) as [p|] eqn:Hp; cbn; [|exact Hp].
  apply lookup_delete_eq.
Qed.

Lemma exec_sound rm c :
  0 < Risk.rm_stop_loss_percentage rm ->
  0 < Risk.rm_take_profit_percentage rm ->
  Risk.positive_entries [c] ->
  map_Forall (fun _ p => Live.sound p) (Risk.positions rm) ->
  map_Forall (fun _ p => Live.sound p) (Risk.positions (Risk.exec rm c)).
Proof.
  intros Hs Ht Hc Hinv.
  destruct c as [sym amt entry|sym price|sym|sym|sym price|sym price]; cbn.
  - apply map_Forall_insert_2; [|exact Hinv].
    apply Forall_inv in Hc. split; [exact Hc|].
    exact (thresholds_within rm sym entry Hs Ht Hc).
  - unfold Risk.update_position.
    destruct (Risk.positions rm !! sym) as [p|] eqn:Hp; [|exact Hinv].
    pose proof (map_Forall_lookup_1 _ _ _ _ Hinv Hp) as Hb.
    destruct (feq (Risk.entry_price p) 0); cbn;
      (apply map_Forall_insert_2; [exact Hb|exact Hinv]).
  - unfold Risk.remove_position.
    destruct (Risk.positions rm !! sym) as [p|]; [|exact Hinv].
    cbn. apply map_Forall_delete. exact Hinv.
  - exact Hinv.
  - unfold Risk.check_stop_loss.
    destruct (Risk.positions rm !! sym) as [p|]; [|exact Hinv].
    destruct (fle price (Risk.stop_loss p)); exact Hinv.
  - unfold Risk.check_take_profit.
    destruct (Risk.positions rm !! sym) as [p|]; [|exact Hinv].
    destruct (fge price (Risk.take_profit p)); exact Hinv.
Qed.

(** X24.  A turn of the live loop for a symbol without a position, on a
    frame whose last close is positive, either leaves the bot exactly as it
    was (no order, no position) or opens the position: this happens only
    on a buy signal, the position is entered at the last close with the
    stop loss and the take profit of the risk manager, its amount is the
    one [calculate_position_size] returns at that close, and one buy order
    for the same symbol and amount is stored under the new id while no
    other order is touched. *)
Theorem live_turn_without_position (ex : Orders.Exchange) (notifier : Live.Notifier)
    (bot : Live.Bot) (order_id now sym : string) (signal : Z) (df : DataFrame)
    (last_row : Row) :
  iloc df (-1) = Ok last_row ->
  0 < close last_row ->
  Live.positions bot !! sym = None ->
  let bot' := fst (Live.process_signal ex notifier bot order_id now sym signal df) in
  let rm := Live.risk_manager bot in
  let price := close last_row in
  match Live.positions bot' !! sym with
  | None => bot' = bot
  | Some p' =>
      signal = 1%Z /\
      Risk.entry_price p' = price /\
      Risk.current_price p' = price /\
      Risk.stop_loss p' = Risk.calculate_stop_loss rm sym price /\
      Risk.take_profit p' = Risk.calculate_take_profit rm sym price /\
      Risk.calculate_position_size rm sym price = Ok (Risk.amount p') /\
      Live.placed bot bot' order_id Backtest.buy sym (Risk.amount p')
  end.
Proof.
  intros Hlast Hprice Hnone. cbn zeta. unfold Live.positions in *.
  destruct (process_signal_cases ex notifier bot order_id now sym signal df last_row Hlast)
    as [_ Hcases].
  cbn zeta in Hcases. rewrite Hnone in Hcases.
  destruct Hcases as [Hb|(Hsig & amt & Hsize & Hrm & Hpl)].
  - rewrite Hb, Hnone. reflexivity.
  - rewrite Hrm. cbn [Risk.exec Risk.add_position fst Risk.positions Risk.set_positions].
    rewrite lookup_insert_eq.
    cbn [Risk.entry_price Risk.current_price Risk.stop_loss Risk.take_profit Risk.amount].
    repeat (split; [reflexivity || assumption|]).
    exact Hpl.
Qed.

Lemma live_turn_without_position_witness :
  Strategy.generate_signals default_config [("BTC/USDT"%string, crossover_frame)]
    = Ok [("BTC/USDT"%string, 1%Z)] /\
  exists p',
    Live.positions
      (fst (Live.process_signal sample_exchange None live_bot "id-1"
              "2024-01-01T00:00:00" "BTC/USDT" 1 crossover_frame)) !! "BTC/USDT"%string
      = Some p' /\
    Risk.entry_price p' = 100 /\
    Risk.calculate_position_size (Live.risk_manager live_bot) "BTC/USDT" 100
      = Ok (Risk.amount p').
Proof.
  split; [vm_compute; reflexivity|].
  pose proof (live_turn_without_position sample_exchange None live_bot "id-1"
                "2024-01-01T00:00:00" "BTC/USDT" 1 crossover_frame bar1
                eq_refl eq_refl eq_refl) as H.
  cbn zeta in H.
  set (bot' := fst (Live.process_signal sample_exchange None live_bot "id-1"
                      "2024-01-01T00:00:00" "BTC/USDT" 1 crossover_frame)) in *.
  destruct (Live.positions bot' !! "BTC/USDT"%string) as [p'|] eqn:E.
  - exists p'. split; [reflexivity|].
    destruct H as (_ & He & _ & _ & _ & Hv & _). split; [exact He|exact Hv].
  - exfalso. vm_compute in E. discriminate E.
Defined.

(** X25.  A turn of the live loop for a held position (entry price other
    than zero) either sells it or keeps it as it was entered.  The position
    is gone after the turn only if there was a reason to sell (a sell
    signal, or a last close at or below the stop loss or at or above the
    take profit), and then one sell order for the held amount is stored
    under the new id.  Otherwise the position keeps its symbol, amount,
    entry price, stop loss and take profit, no order is stored, a reason to
    sell means the exchange refused the order, and unless the signal was a
    sell signal the current price and the profit were refreshed from the
    last close.  A buy signal for a held symbol buys nothing. *)
Theorem live_turn_with_position (ex : Orders.Exchange) (notifier : Live.Notifier)
    (bot : Live.Bot) (order_id now sym : string) (signal : Z) (df : DataFrame)
    (last_row : Row) (p : Risk.Position) :
  iloc df (-1) = Ok last_row ->
  Live.positions bot !! sym = Some p ->
  ~ Risk.entry_price p == 0 ->
  let bot' := fst (Live.process_signal ex notifier bot order_id now sym signal df) in
  let price := close last_row in
  match Live.positions bot' !! sym with
  | None =>
      Live.exit_due p signal price /\
      Live.placed bot bot' order_id Backtest.sell sym (Risk.amount p)
  | Some p' =>
      Risk.symbol p' = Risk.symbol p /\
      Risk.amount p' = Risk.amount p /\
      Risk.entry_price p' = Risk.entry_price p /\
      Risk.stop_loss p' = Risk.stop_loss p /\
      Risk.take_profit p' = Risk.take_profit p /\
      Live.order_manager bot' = Live.order_manager bot /\
      (Live.exit_due p signal price -> Live.sell_refused ex sym (Risk.amount p)) /\
      (signal <> (-1)%Z ->
         Risk.current_price p' = price /\
         Risk.profit_loss p' = (price - Risk.entry_price p) * Risk.amount p)
  end.
Proof.
  intros Hlast Hp Hentry. cbn zeta. unfold Live.positions in *.
  destruct (process_signal_cases ex notifier bot order_id now sym signal df last_row Hlast)
    as [_ Hcases].
  cbn zeta in Hcases. rewrite Hp in Hcases.
  destruct (update_position_writes (Live.risk_manager bot) sym (close last_row) p Hp)
    as (Hrm1 & _ & p' & Hps & Hsym & Hamt & Hent & Hsl & Htp & Hcur & Hpl').
  cbn zeta in Hrm1, Hps. rewrite Hrm1 in Hps.
  destruct Hcases as [(Hsig & Hb & Href)|[(Hsig & Hrm & Hpl)|
                      [(Hsig & Hrm & Hom & Hwhy)|(Hsig & Hrm & Hpl & Hwhy)]]].
  - rewrite Hb, Hp.
    repeat (split; [reflexivity|]). split; [intros _; exact Href|].
    intros Hne. contradiction.
  - rewrite Hrm, exec_remove_lookup. split; [left; exact Hsig|exact Hpl].
  - rewrite Hrm, Hps, lookup_insert_eq.
    repeat (split; [assumption|]). split.
    + intros [Hs|Hexit]; [contradiction|].
      destruct Hwhy as [Hz|[[Hlo Hhi]|Href]]; [contradiction| |exact Href].
      exfalso. destruct Hexit as [Hexit|Hexit]; lra.
    + intros _. split; assumption.
  - rewrite Hrm, exec_remove_lookup. split; [right; exact Hwhy|exact Hpl].
Qed.

Lemma live_turn_with_position_witness :
  Live.positions
    (fst (Live.process_signal sample_exchange None holding_bot "id-2"
            "2024-01-01T00:15:00" "BTC/USDT" 0 [bar3; bar4])) !! "BTC/USDT"%string
    = None /\
  Live.placed holding_bot
    (fst (Live.process_signal sample_exchange None holding_bot "id-2"
            "2024-01-01T00:15:00" "BTC/USDT" 0 [bar3; bar4]))
    "id-2" Backtest.sell "BTC/USDT" 2.
Proof.
  assert (Hp : exists p, Live.positions holding_bot !! "BTC/USDT"%string = Some p /\
                         Risk.amount p = 2 /\ ~ Risk.entry_price p == 0).
  { eexists. split; [reflexivity|]. split; [reflexivity|]. cbn. lra. }
  destruct Hp as (p & Hp & Hamt & Hentry).
  pose proof (live_turn_with_position sample_exchange None holding_bot "id-2"
                "2024-01-01T00:15:00" "BTC/USDT" 0 [bar3; bar4] bar4 p
                eq_refl Hp Hentry) as H.
  cbn zeta in H.
  set (bot' := fst (Live.process_signal sample_exchange None holding_bot "id-2"
                      "2024-01-01T00:15:00" "BTC/USDT" 0 [bar3; bar4])) in *.
  destruct (Live.positions bot' !! "BTC/USDT"%string) as [p'|] eqn:E.
  - exfalso. vm_compute in E. discriminate E.
  - split; [reflexivity|]. rewrite <- Hamt. exact (proj2 H).
Defined.

(** X26.  A turn of the live loop is local to its symbol and its order
    id.  Whatever the signal, the frame, the exchange and the notifier do,
    the turn keeps the configuration and the parameters of the risk
    manager, leaves the position of every other symbol as it was, and
    leaves every order stored under another id as it was. *)
Theorem live_turn_is_local (ex : Orders.Exchange) (notifier : Live.Notifier)
    (bot : Live.Bot) (order_id now sym : string) (signal : Z) (df : DataFrame) :
  let bot' := fst (Live.process_signal ex notifier bot order_id now sym signal df) in
  Live.config bot' = Live.config bot /\
  Risk.set_positions (Live.risk_manager bot') (Live.positions bot) =
    Live.risk_manager bot /\
  (forall other, other <> sym ->
     Live.positions bot' !! other = Live.positions bot !! other) /\
  (forall other, other <> order_id ->
     dict_get other (Orders.orders (Live.order_manager bot')) =
     dict_get other (Orders.orders (Live.order_manager bot))).
Proof.
  cbn zeta. unfold Live.positions.
  destruct (iloc df (-1)) as [last_row|e] eqn:Hlast.
  2:{ unfold Live.process_signal. rewrite Hlast. cbn [fst].
      split; [reflexivity|]. split; [apply set_positions_same|].
      split; intros; reflexivity. }
  destruct (process_signal_cases ex notifier bot order_id now sym signal df last_row Hlast)
    as [Hcfg Hcases].
  cbn zeta in Hcfg, Hcases. split; [exact Hcfg|].
  assert (Hset : forall rm c,
             Risk.set_positions (Risk.exec rm c) (Risk.positions rm) = rm).
  { intros rm c.
    destruct (exec_attributes rm c) as (H1 & H2 & H3 & H4 & H5 & H6).
    unfold Risk.set_positions. rewrite H1, H2, H3, H4, H5, H6.
    destruct rm. reflexivity. }
  assert (Hset2 : forall rm c c',
             Risk.set_positions (Risk.exec (Risk.exec rm c) c') (Risk.positions rm) = rm).
  { intros rm c c'. rewrite <- (Hset rm c) at 3.
    rewrite <- (Hset (Risk.exec rm c) c') at 2.
    rewrite set_positions_twice. reflexivity. }
  destruct (Risk.positions (Live.risk_manager bot) !! sym) as [p|] eqn:Hp.
  - destruct Hcases as [(Hsig & Hb & Href)|[(Hsig & Hrm & Hpl)|
                        [(Hsig & Hrm & Hom & Hwhy)|(Hsig & Hrm & Hpl & Hwhy)]]].
    + rewrite Hb. split; [apply set_positions_same|]. split; intros; reflexivity.
    + rewrite Hrm. split; [apply Hset|].
      split; [|exact (proj2 Hpl)].
      intros other Hne. apply exec_other. cbn. congruence.
    + rewrite Hrm, Hom. split; [apply Hset|].
      split; [|intros; reflexivity].
      intros other Hne. apply exec_other. cbn. congruence.
    + rewrite Hrm. split; [apply Hset2|].
      split; [|exact (proj2 Hpl)].
      intros other Hne. rewrite !exec_other by (cbn; congruence). reflexivity.
  - destruct Hcases as [Hb|(Hsig & amt & Hsize & Hrm & Hpl)].
    + rewrite Hb. split; [apply set_positions_same|]. split; intros; reflexivity.
    + rewrite Hrm. split; [apply Hset|].
      split; [|exact (proj2 Hpl)].
      intros other Hne. apply exec_other. cbn. congruence.
Qed.

(** X27.  The live loop keeps its positions sound.  With positive stop
    loss and take profit percentages and a positive last close, if every
    position held before a turn has a positive entry price that is not
    below its stop loss and not above its take profit, so has every
    position held after it, whatever the signal and whatever the exchange
    and the notifier answer. *)
Theorem live_turn_keeps_positions_sound (ex : Orders.Exchange)
    (notifier : Live.Notifier) (bot : Live.Bot) (order_id now sym : string)
    (signal : Z) (df : DataFrame) (last_row : Row) :
  0 < Risk.rm_stop_loss_percentage (Live.risk_manager bot) ->
  0 < Risk.rm_take_profit_percentage (Live.risk_manager bot) ->
  iloc df (-1) = Ok last_row ->
  0 < close last_row ->
  map_Forall (fun _ p => Live.sound p) (Live.positions bot) ->
  map_Forall (fun _ p => Live.sound p)
    (Live.positions (fst (Live.process_signal ex notifier bot order_id now sym signal df))).
Proof.
  intros Hs Ht Hlast Hprice Hinv. unfold Live.positions in *.
  destruct (process_signal_cases ex notifier bot order_id now sym signal df last_row Hlast)
    as [_ Hcases].
  cbn zeta in Hcases.
  assert (Hstep : forall c, Risk.positive_entries [c] ->
            map_Forall (fun _ p => Live.sound p)
              (Risk.positions (Risk.exec (Live.risk_manager bot) c))).
  { intros c Hc. apply exec_sound; assumption. }
  assert (Htriv : forall c, match c with Risk.AddPosition _ _ _ => False | _ => True end ->
            Risk.positive_entries [c]).
  { intros c Hc. constructor; [|constructor]. destruct c; try exact I. contradiction. }
  destruct (Risk.positions (Live.risk_manager bot) !! sym) as [p|] eqn:Hp.
  - destruct Hcases as [(Hsig & Hb & Href)|[(Hsig & Hrm & Hpl)|
                        [(Hsig & Hrm & Hom & Hwhy)|(Hsig & Hrm & Hpl & Hwhy)]]].
    + rewrite Hb. exact Hinv.
    + rewrite Hrm. apply Hstep, Htriv. exact I.
    + rewrite Hrm. apply Hstep, Htriv. exact I.
    + rewrite Hrm.
      destruct (exec_percentages (Live.risk_manager bot)
                  (Risk.UpdatePosition sym (close last_row))) as [E1 E2].
      apply exec_sound.
      * rewrite E1. exact Hs.
      * rewrite E2. exact Ht.
      * apply Htriv. exact I.
      * apply Hstep, Htriv. exact I.
  - destruct Hcases as [Hb|(Hsig & amt & Hsize & Hrm & Hpl)].
    + rewrite Hb. exact Hinv.
    + rewrite Hrm. apply Hstep. constructor; [exact Hprice|constructor].
Qed.

Lemma live_turn_keeps_positions_sound_witness :
  map_Forall (fun _ p => Live.sound p)
    (Live.positions
       (fst (Live.process_signal sample_exchange None holding_bot "id-2"
               "2024-01-01T00:15:00" "ETH/USDT" 1 crossover_frame))).
Proof.
  apply (live_turn_keeps_positions_sound sample_exchange None holding_bot "id-2"
           "2024-01-01T00:15:00" "ETH/USDT" 1 crossover_frame bar1);
    try reflexivity.
  unfold holding_bot, Live.positions. cbn [Live.risk_manager].
  cbn [Risk.add_position fst Risk.positions Risk.set_positions Risk.init].
  apply map_Forall_insert_2; [|apply map_Forall_empty].
  vm_compute. repeat split; first [reflexivity | discriminate].
Defined.

(** X28.  Notifications come last and change nothing.  The bot after a
    turn of the live loop is the same with any notifier as with none: a
    notifier that raises leaves the order stored and the position added or
    removed.  And a turn that ends without an exception with a notifier
    also does so without one. *)
Theorem live_turn_ignores_notifier (ex : Orders.Exchange) (notifier : Live.Notifier)
    (bot : Live.Bot) (order_id now sym : string) (signal : Z) (df : DataFrame) :
  fst (Live.process_signal ex notifier bot order_id now sym signal df) =
    fst (Live.process_signal ex None bot order_id now sym signal df) /\
  (snd (Live.process_signal ex notifier bot order_id now sym signal df) = Done tt ->
   snd (Live.process_signal ex None bot order_id now sym signal df) = Done tt).
Proof.
  unfold Live.process_signal, Live.sell_out.
  repeat match goal with
         | |- context [match ?x with _ => _ end] =>
             lazymatch x with
             | Live.send_all _ _ => fail
             | _ => destruct x eqn:?
             end
         end;
    cbn [fst snd]; split; try reflexivity; try (intros H; exact H);
    try (intros H; discriminate H).
Qed.
